(** * weather-cli: a shallow embedding of [weather.py]

    The development follows the layout of the program: the values that
    travel through it (decoded JSON, binary64 floats, exceptions), the
    static tables, the two network clients, the formatting helpers, the
    two display functions and [main].  The functions of the program are
    executable definitions; the properties come after them. *)

From Stdlib Require Import ZArith Ascii String List Floats.SpecFloat.
From stdpp Require Import gmap strings list fin_maps pretty.

Local Open Scope string_scope.
Local Open Scope Z_scope.

(** ** Python values *)

(** Python floats are IEEE 754 binary64; the operations are the ones of
    the standard library's executable specification at precision 53. *)
Module Float64.
Definition prec : Z := 53.
Definition emax : Z := 1024.
Definition float : Type := spec_float.

Definition div : float -> float -> float := SFdiv prec emax.

(** The nearest float to [m * 2^e] (ties to even), [inf] on overflow. *)
Definition of_scaled (m e : Z) : float := binary_normalize prec emax m e false.

Definition is_finite (f : float) : bool :=
  match f with
  | S754_zero _ | S754_finite _ _ _ => true
  | S754_infinity _ | S754_nan => false
  end.

(** The integer nearest to [m * 2^e], ties to even, for [0 <= m]. *)
Definition round_half_even (m e : Z) : Z :=
  if 0 <=? e then m * 2 ^ e
  else
    let d := 2 ^ (- e) in
    let q := m / d in
    let r := m mod d in
    match (2 * r) ?= d with
    | Lt => q
    | Gt => q + 1
    | Eq => if Z.even q then q else q + 1
    end.

(** The float as an integer when its value is one ([hash] and [==] of
    a float agree with the int of the same value). *)
Definition to_integral (f : float) : option Z :=
  match f with
  | S754_zero _ => Some 0
  | S754_finite s m e =>
      if 0 <=? e then Some (cond_Zopp s (Zpos m * 2 ^ e))
      else if Zpos m mod 2 ^ (- e) =? 0
           then Some (cond_Zopp s (Zpos m / 2 ^ (- e)))
           else None
  | S754_infinity _ | S754_nan => None
  end.

(** The literal [22.5]. *)
Definition f22_5 : float := S754_finite false 6333186975989760 (-48).
End Float64.

Abbreviation float := Float64.float.

(** What [response.json()] produces: the decoded document.  Python keeps
    JSON integers and JSON reals apart ([int] and [float]); an object is
    a [dict] with string keys, kept here as an association list read by
    [dict_lookup]. *)
#[warnings="-register-all"]
Inductive json : Type :=
  | JNull
  | JBool (b : bool)
  | JInt (z : Z)
  | JFloat (f : float)
  | JStr (s : string)
  | JArr (l : list json)
  | JObj (kv : list (string * json)).

(** The subclasses of [requests.RequestException] that matter here
    ([JSONDecodeError] is one of them since requests 2.27). *)
Inductive request_error : Type :=
  | ConnectionError
  | Timeout
  | HTTPError
  | JSONDecodeError
  | OtherRequestError.

(** The exceptions that the program can meet; [NotRenderableError] is
    Rich's. *)
Inductive exn : Type :=
  | RequestException (kind : request_error) (msg : string)
  | KeyboardInterrupt
  | SystemExit (code : Z)
  | KeyError (key : json)
  | IndexError
  | TypeError
  | ValueError
  | AttributeError
  | OverflowError
  | NotRenderableError.

(** ** Computations that may raise *)

Inductive result (A : Type) : Type :=
  | Ok (a : A)
  | Raise (e : exn).
Arguments Ok {A} a.
Arguments Raise {A} e.

Definition result_bind {A B} (m : result A) (k : A -> result B) : result B :=
  match m with
  | Ok a => k a
  | Raise e => Raise e
  end.

Notation "x <- m ;; k" := (result_bind m (fun x => k))
  (at level 100, m at next level, right associativity,
   format "'[v' x  <-  m  ;;  '/' k ']'").

Definition is_ok {A} (r : result A) : bool :=
  match r with Ok _ => true | Raise _ => false end.

(** ** Operations of the Python data model used by the program *)

Fixpoint dict_lookup (k : string) (kv : list (string * json)) : option json :=
  match kv with
  | [] => None
  | (k', v) :: rest => if String.eqb k k' then Some v else dict_lookup k rest
  end.

(** [bool(v)]. *)
Definition truthy (v : json) : bool :=
  match v with
  | JNull => false
  | JBool b => b
  | JInt z => negb (z =? 0)
  | JFloat f =>
      match f with
      | S754_zero _ => false
      | _ => true
      end
  | JStr s => negb (String.eqb s "")
  | JArr l => match l with [] => false | _ => true end
  | JObj kv => match kv with [] => false | _ => true end
  end.

(** [l[i]] on a Python [list]: a negative index counts from the end, an
    index outside the list raises [IndexError]. *)
Definition list_index {A} (l : list A) (i : Z) : result A :=
  let n := Z.of_nat (length l) in
  let j := if i <? 0 then i + n else i in
  if (0 <=? j) && (j <? n)
  then match l !! Z.to_nat j with
       | Some x => Ok x
       | None => Raise IndexError
       end
  else Raise IndexError.

(** [s[i]] on a [str]: the one-character string at that place (strings
    are kept as their bytes; the program never looks inside the
    character it gets this way). *)
Definition str_index (s : string) (i : Z) : result json :=
  c <- list_index (list_ascii_of_string s) i ;;
  Ok (JStr (String c EmptyString)).

(** [v[key]] for a string key. *)
Definition subscript_key (v : json) (key : string) : result json :=
  match v with
  | JObj kv =>
      match dict_lookup key kv with
      | Some x => Ok x
      | None => Raise (KeyError (JStr key))
      end
  | _ => Raise TypeError
  end.

(** [v[i]] for an int index. *)
Definition subscript_int (v : json) (i : Z) : result json :=
  match v with
  | JArr l => list_index l i
  | JStr s => str_index s i
  | JObj _ => Raise (KeyError (JInt i))
  | _ => Raise TypeError
  end.

(** [v.get(key, default)]: only a [dict] has the method. *)
Definition get_default (v : json) (key : string) (default : json) : result json :=
  match v with
  | JObj kv =>
      match dict_lookup key kv with
      | Some x => Ok x
      | None => Ok default
      end
  | _ => Raise AttributeError
  end.

(** [key in v] for a string key: a key of a [dict], an element of a
    [list], a substring of a [str]; other values are not containers. *)
Definition contains (v : json) (key : string) : result bool :=
  match v with
  | JObj kv => Ok (match dict_lookup key kv with Some _ => true | None => false end)
  | JArr l =>
      Ok (existsb (fun x => match x with JStr s => String.eqb s key | _ => false end) l)
  | JStr s => Ok (match String.index 0 key s with Some _ => true | None => false end)
  | _ => Raise TypeError
  end.

(** ** The terminal and the network *)

(** What the program hands to [console.print]: a [str] (in which Rich
    reads its markup) or one of the objects of the Rich library that
    the program builds, without their style options. *)
#[warnings="-register-all"]
Inductive renderable : Type :=
  | Str (s : string)
  | Text (s : string)
  | AlignCenter (r : renderable)
  | Table (rows : list (list string))
  | Group (items : list renderable)
  | Panel (content : renderable) (title : string).

(** What a run does to the outside world, in order: the requests it
    sends, the lines it gives to [print], and the objects it gives to
    [console.print] ([EConsoleBlank] is the call without argument).
    The terminal takes what it is given: what Rich then draws is outside
    the program. *)
Inductive event : Type :=
  | EGet (url : string) (params : gmap string json) (timeout : Z)
  | EPrint (line : string)
  | EConsole (r : renderable)
  | EConsoleBlank.

(** An HTTP response as far as the program looks at it. *)
Inductive body : Type :=
  | Undecodable (msg : string)
  | Decoded (doc : json).

Record response : Type := {
  status_code : Z;
  reason : string;
  final_url : string;
  content : body;
}.

Inductive get_outcome : Type :=
  | GetFails (kind : request_error) (msg : string)
  | GetInterrupted
  | GetReturns (r : response).

(** The remote side: what [requests.get] meets for a given request.
    [GetInterrupted] is the user pressing Ctrl-C while the call blocks,
    the one place where the program waits. *)
Definition network : Type := string -> gmap string json -> get_outcome.

(** Effectful code: the events it emitted and how it ended. *)
Definition io (A : Type) : Type := list event * result A.

Definition io_ret {A} (a : A) : io A := ([], Ok a).
Definition io_raise {A} (e : exn) : io A := ([], Raise e).
Definition io_emit (ev : event) : io unit := ([ev], Ok tt).
Definition io_lift {A} (r : result A) : io A := ([], r).

Definition io_bind {A B} (m : io A) (k : A -> io B) : io B :=
  match m with
  | (t, Ok a) => let '(t', r) := k a in ((t ++ t')%list, r)
  | (t, Raise e) => (t, Raise e)
  end.

Notation "x <~ m ;; k" := (io_bind m (fun x => k))
  (at level 100, m at next level, right associativity,
   format "'[v' x  <~  m  ;;  '/' k ']'").
Notation "m ;;; k" := (io_bind m (fun _ => k))
  (at level 100, right associativity,
   format "'[v' m  ;;;  '/' k ']'").

(** [try: m except <classes accepted by h>: ...]. *)
Definition io_try {A} (m : io A) (h : exn -> option (io A)) : io A :=
  match m with
  | (t, Ok a) => (t, Ok a)
  | (t, Raise e) =>
      match h e with
      | Some k => let '(t', r) := k in ((t ++ t')%list, r)
      | None => (t, Raise e)
      end
  end.

Definition trace {A} (m : io A) : list event := fst m.
Definition outcome {A} (m : io A) : result A := snd m.

(** [requests.get(url, params=params, timeout=timeout)]. *)
Definition requests_get (net : network) (url : string)
    (params : gmap string json) (timeout : Z) : io response :=
  io_emit (EGet url params timeout) ;;;
  match net url params with
  | GetFails kind msg => io_raise (RequestException kind msg)
  | GetInterrupted => io_raise KeyboardInterrupt
  | GetReturns r => io_ret r
  end.

(** [response.raise_for_status()]. *)
Definition raise_for_status (r : response) : result unit :=
  if (400 <=? status_code r) && (status_code r <? 500) then
    Raise (RequestException HTTPError
             (pretty (status_code r) +:+ " Client Error: " +:+ reason r
              +:+ " for url: " +:+ final_url r))
  else if (500 <=? status_code r) && (status_code r <? 600) then
    Raise (RequestException HTTPError
             (pretty (status_code r) +:+ " Server Error: " +:+ reason r
              +:+ " for url: " +:+ final_url r))
  else Ok tt.

(** [response.json()]. *)
Definition response_json (r : response) : result json :=
  match content r with
  | Decoded doc => Ok doc
  | Undecodable msg => Raise (RequestException JSONDecodeError msg)
  end.

(** ** Constants *)

Definition GEOCODING_URL : string := "https://geocoding-api.open-meteo.com/v1/search".
Definition WEATHER_URL : string := "https://api.open-meteo.com/v1/forecast".

Definition WEATHER_CODES : gmap Z (string * string) :=
  list_to_map [
    (0, ("Clear sky", "☀️"));
    (1, ("Mainly clear", "🌤️"));
    (2, ("Partly cloudy", "⛅"));
    (3, ("Overcast", "☁️"));
    (45, ("Fog", "🌫️"));
    (48, ("Depositing rime fog", "🌫️"));
    (51, ("Light drizzle", "🌦️"));
    (53, ("Moderate drizzle", "🌦️"));
    (55, ("Dense drizzle", "🌧️"));
    (56, ("Light freezing drizzle", "🌧️"));
    (57, ("Dense freezing drizzle", "🌧️"));
    (61, ("Slight rain", "🌧️"));
    (63, ("Moderate rain", "🌧️"));
    (65, ("Heavy rain", "🌧️"));
    (66, ("Light freezing rain", "🌧️"));
    (67, ("Heavy freezing rain", "🌧️"));
    (71, ("Slight snowfall", "❄️"));
    (73, ("Moderate snowfall", "❄️"));
    (75, ("Heavy snowfall", "❄️"));
    (77, ("Snow grains", "❄️"));
    (80, ("Slight rain showers", "🌦️"));
    (81, ("Moderate rain showers", "🌦️"));
    (82, ("Violent rain showers", "🌧️"));
    (85, ("Slight snow showers", "❄️"));
    (86, ("Heavy snow showers", "❄️"));
    (95, ("Thunderstorm", "⛈️"));
    (96, ("Thunderstorm with slight hail", "⛈️"));
    (99, ("Thunderstorm with heavy hail", "⛈️"))
  ].

Definition CARDINAL_DIRECTIONS : list string := [
  "N"; "NNE"; "NE"; "ENE"; "E"; "ESE"; "SE"; "SSE";
  "S"; "SSW"; "SW"; "WSW"; "W"; "WNW"; "NW"; "NNW"
].

(** ** API functions *)

(** The [dict] that [geocode_city] returns: its five keys are always
    present, so it is a record; the values are whatever the service
    sent. *)
Record location : Type := {
  name : json;
  latitude : json;
  longitude : json;
  country : json;
  admin1 : json;
}.

(** The query of the geocoding request. *)
Definition geocoding_params (city_name : string) : gmap string json :=
  {[ "name" := JStr city_name; "count" := JInt 5 ]}.

Definition geocode_city (net : network) (city_name : string) : io (option location) :=
  io_try
    (response <~ requests_get net GEOCODING_URL (geocoding_params city_name) 10 ;;
     io_lift (raise_for_status response) ;;;
     data <~ io_lift (response_json response) ;;
     present <~ io_lift (contains data "results") ;;
     if negb present then io_ret None else
     results <~ io_lift (subscript_key data "results") ;;
     if negb (truthy results) then io_ret None else
     results' <~ io_lift (subscript_key data "results") ;;
     result <~ io_lift (subscript_int results' 0) ;;
     name <~ io_lift (get_default result "name" (JStr city_name)) ;;
     latitude <~ io_lift (subscript_key result "latitude") ;;
     longitude <~ io_lift (subscript_key result "longitude") ;;
     country <~ io_lift (get_default result "country" (JStr "")) ;;
     admin1 <~ io_lift (get_default result "admin1" (JStr "")) ;;
     io_ret (Some {| name := name; latitude := latitude; longitude := longitude;
                     country := country; admin1 := admin1 |}))
    (fun e =>
       match e with
       | RequestException _ msg =>
           Some (io_emit (EPrint ("[red]Error connecting to geocoding service: "
                                  +:+ msg +:+ "[/red]")) ;;;
                 io_ret None)
       | _ => None
       end).

(** The query of the forecast request. *)
Definition weather_params (lat lon : json) (use_fahrenheit : bool) : gmap string json :=
  let params : gmap string json :=
    {[ "latitude" := lat;
       "longitude" := lon;
       "current" := JStr (String.concat "," [
           "temperature_2m";
           "relative_humidity_2m";
           "apparent_temperature";
           "weather_code";
           "wind_speed_10m";
           "wind_direction_10m" ]);
       "daily" := JStr (String.concat "," [
           "temperature_2m_max";
           "temperature_2m_min";
           "weather_code";
           "precipitation_sum";
           "sunrise";
           "sunset" ]);
       "timezone" := JStr "auto";
       "forecast_days" := JInt 5 ]} in
  if use_fahrenheit
  then <[ "wind_speed_unit" := JStr "mph" ]>
         (<[ "temperature_unit" := JStr "fahrenheit" ]> params)
  else params.

(** The function returns the decoded document itself, or [None], which
    is the value a JSON [null] decodes to. *)
Definition fetch_weather (net : network) (lat lon : json) (use_fahrenheit : bool)
    : io json :=
  let params := weather_params lat lon use_fahrenheit in
  io_try
    (response <~ requests_get net WEATHER_URL params 10 ;;
     io_lift (raise_for_status response) ;;;
     data <~ io_lift (response_json response) ;;
     io_ret data)
    (fun e =>
       match e with
       | RequestException _ msg =>
           Some (io_emit (EPrint ("[red]Error fetching weather data: "
                                  +:+ msg +:+ "[/red]")) ;;;
                 io_ret JNull)
       | _ => None
       end).

(** ** Formatting helpers *)

(** The key under which a value is looked up in a [dict] keyed by ints:
    an int, a bool ([True == 1]) or a float of integral value finds the
    int it equals; [None] and strings equal no int; lists and dicts are
    unhashable. *)
Definition int_key (v : json) : result (option Z) :=
  match v with
  | JInt z => Ok (Some z)
  | JBool b => Ok (Some (if b then 1 else 0))
  | JFloat f => Ok (Float64.to_integral f)
  | JNull | JStr _ => Ok None
  | JArr _ | JObj _ => Raise TypeError
  end.

Definition weather_codes_entry (k : option Z) : option (string * string) :=
  match k with
  | Some z => WEATHER_CODES !! z
  | None => None
  end.

(** [code in WEATHER_CODES]. *)
Definition in_weather_codes (code : json) : result bool :=
  k <- int_key code ;;
  Ok (match weather_codes_entry k with Some _ => true | None => false end).

(** [WEATHER_CODES[code]]. *)
Definition weather_codes_item (code : json) : result (string * string) :=
  k <- int_key code ;;
  match weather_codes_entry k with
  | Some entry => Ok entry
  | None => Raise (KeyError code)
  end.

Definition get_weather_icon (code : json) : result string :=
  known <- in_weather_codes code ;;
  if known then entry <- weather_codes_item code ;; Ok (snd entry)
  else Ok "🌡️".

Definition get_weather_description (code : json) : result string :=
  known <- in_weather_codes code ;;
  if known then entry <- weather_codes_item code ;; Ok (fst entry)
  else Ok "Unknown".

(** [float(z)]: the nearest float, [OverflowError] when there is none. *)
Definition int_to_float (z : Z) : result float :=
  let f := Float64.of_scaled z 0 in
  if Float64.is_finite f then Ok f else Raise OverflowError.

(** ['%.1f' % f]: the decimal with one fractional digit nearest to the
    exact value of the float, ties to even. *)
Definition format_float_1f (f : float) : string :=
  match f with
  | S754_nan => "nan"
  | S754_infinity s => if s then "-inf" else "inf"
  | S754_zero s => if s then "-0.0" else "0.0"
  | S754_finite s m e =>
      let tenths := Float64.round_half_even (Zpos m * 10) e in
      (if s then "-" else "") +:+ pretty (tenths / 10) +:+ "." +:+ pretty (tenths mod 10)
  end.

(** [format(v, ".1f")]. *)
Definition format_1f (v : json) : result string :=
  match v with
  | JFloat f => Ok (format_float_1f f)
  | JInt z => f <- int_to_float z ;; Ok (format_float_1f f)
  | JBool b => f <- int_to_float (if b then 1 else 0) ;; Ok (format_float_1f f)
  | JStr _ => Raise ValueError
  | JNull | JArr _ | JObj _ => Raise TypeError
  end.

Definition format_temperature (temp : json) (use_fahrenheit : bool) : result string :=
  let unit := if use_fahrenheit then "°F" else "°C" in
  s <- format_1f temp ;;
  Ok (s +:+ unit).

(** The left operand of [v / 22.5] as a float. *)
Definition float_operand (v : json) : result float :=
  match v with
  | JFloat f => Ok f
  | JInt z => int_to_float z
  | JBool b => int_to_float (if b then 1 else 0)
  | _ => Raise TypeError
  end.

(** [round(f)] with one argument: the nearest int, ties to even. *)
Definition py_round (f : float) : result Z :=
  match f with
  | S754_zero _ => Ok 0
  | S754_finite s m e => Ok (cond_Zopp s (Float64.round_half_even (Zpos m) e))
  | S754_infinity _ => Raise OverflowError
  | S754_nan => Raise ValueError
  end.

(** [round(direction_degrees / 22.5) % 16]. *)
Definition wind_index (direction_degrees : json) : result Z :=
  d <- float_operand direction_degrees ;;
  n <- py_round (Float64.div d Float64.f22_5) ;;
  Ok (n mod 16).

(** [CARDINAL_DIRECTIONS[index]] for that index. *)
Definition wind_cardinal (direction_degrees : json) : result string :=
  index <- wind_index direction_degrees ;;
  list_index CARDINAL_DIRECTIONS index.

Definition format_wind (speed direction_degrees : json) (use_fahrenheit : bool)
    : result string :=
  let unit := if use_fahrenheit then "mph" else "km/h" in
  cardinal <- wind_cardinal direction_degrees ;;
  s <- format_1f speed ;;
  Ok (s +:+ " " +:+ unit +:+ " " +:+ cardinal).

(** [try: r except (<classes accepted by h>): ...] without effects. *)
Definition result_try {A} (r : result A) (h : exn -> option (result A)) : result A :=
  match r with
  | Ok a => Ok a
  | Raise e => match h e with Some r' => r' | None => Raise e end
  end.

(** A [datetime.datetime] as far as the two [strftime] calls read it. *)
Record datetime : Type := {
  year : Z;
  month : Z;
  day : Z;
  hour : Z;
  minute : Z;
  second : Z;
}.

Definition zero_pad2 (n : Z) : string :=
  if n <? 10 then "0" +:+ pretty n else pretty n.

(** [dt.strftime("%-I:%M %p")]; the Windows directive ["%#I:%M %p"]
    gives the same text, so the platform test has one outcome. *)
Definition strftime_clock (dt : datetime) : string :=
  let h := hour dt mod 12 in
  pretty (if h =? 0 then 12 else h) +:+ ":" +:+ zero_pad2 (minute dt) +:+ " "
  +:+ (if hour dt <? 12 then "AM" else "PM").

Definition is_leap (y : Z) : bool :=
  (y mod 4 =? 0) && (negb (y mod 100 =? 0) || (y mod 400 =? 0)).

Definition days_before_month (y m : Z) : Z :=
  let base := nth (Z.to_nat (m - 1))
                  [0; 31; 59; 90; 120; 151; 181; 212; 243; 273; 304; 334] 0 in
  if (2 <? m) && is_leap y then base + 1 else base.

(** [dt.weekday()]: Monday is 0. *)
Definition weekday (dt : datetime) : Z :=
  let y := year dt - 1 in
  let ordinal := y * 365 + y / 4 - y / 100 + y / 400
                 + days_before_month (year dt) (month dt) + day dt in
  (ordinal + 6) mod 7.

(** [dt.strftime("%a %m/%d")]. *)
Definition strftime_date (dt : datetime) : string :=
  nth (Z.to_nat (weekday dt)) ["Mon"; "Tue"; "Wed"; "Thu"; "Fri"; "Sat"; "Sun"] ""
  +:+ " " +:+ zero_pad2 (month dt) +:+ "/" +:+ zero_pad2 (day dt).

(** [", ".join(parts)]: every part has to be a [str]. *)
Fixpoint join_parts (parts : list json) : result (list string) :=
  match parts with
  | [] => Ok []
  | JStr s :: rest => l <- join_parts rest ;; Ok (s :: l)
  | _ :: _ => Raise TypeError
  end.

(** [len(v)]; a [dict] counts its keys once. *)
Definition py_len (v : json) : result nat :=
  match v with
  | JArr l => Ok (length l)
  | JObj kv => Ok (length (remove_dups (map fst kv)))
  | JStr s => Ok (String.length s)
  | _ => Raise TypeError
  end.

(** A value handed to [Table.add_row]: a [str] is a cell, [None] an
    empty one, anything else is refused by Rich. *)
Definition table_cell (v : json) : result string :=
  match v with
  | JStr s => Ok s
  | JNull => Ok ""
  | _ => Raise NotRenderableError
  end.

Fixpoint result_mapM {A B} (f : A -> result B) (l : list A) : result (list B) :=
  match l with
  | [] => Ok []
  | x :: rest => y <- f x ;; ys <- result_mapM f rest ;; Ok (y :: ys)
  end.

Definition newline : string := String (ascii_of_nat 10) EmptyString.

(** The parsed command line ([nargs="+"] gives at least one word). *)
Record arguments : Type := {
  city : list string;
  fahrenheit : bool;
}.

Definition sys_exit {A} (code : Z) : io A := io_raise (SystemExit code).

Section Program.
(** Two functions of the Python library are taken as they are:
    [datetime.fromisoformat] on a string ([None] where it raises
    [ValueError]) and the builtin [str]. *)
Variable fromisoformat : string -> option datetime.
Variable py_str : json -> string.

Definition datetime_fromisoformat (v : json) : result datetime :=
  match v with
  | JStr s =>
      match fromisoformat s with
      | Some dt => Ok dt
      | None => Raise ValueError
      end
  | _ => Raise TypeError
  end.

Definition format_time (iso_str : json) : result json :=
  result_try
    (dt <- datetime_fromisoformat iso_str ;;
     Ok (JStr (strftime_clock dt)))
    (fun e =>
       match e with
       | ValueError | TypeError => Some (Ok iso_str)
       | _ => None
       end).

(** *** Display functions *)

(** The rows of the table and the title, before anything is printed. *)
Definition current_weather_panel (loc : location) (weather : json)
    (use_fahrenheit : bool) : result renderable :=
  current <- subscript_key weather "current" ;;
  code <- get_default current "weather_code" (JInt 0) ;;
  icon <- get_weather_icon code ;;
  description <- get_weather_description code ;;
  let location_parts :=
    ([name loc]
     ++ (if truthy (admin1 loc) then [admin1 loc] else [])
     ++ (if truthy (country loc) then [country loc] else []))%list in
  parts <- join_parts location_parts ;;
  let title := String.concat ", " parts in
  temperature <- subscript_key current "temperature_2m" ;;
  row1 <- format_temperature temperature use_fahrenheit ;;
  apparent <- subscript_key current "apparent_temperature" ;;
  row2 <- format_temperature apparent use_fahrenheit ;;
  humidity <- subscript_key current "relative_humidity_2m" ;;
  let row3 := py_str humidity +:+ "%" in
  speed <- subscript_key current "wind_speed_10m" ;;
  direction <- subscript_key current "wind_direction_10m" ;;
  row4 <- format_wind speed direction use_fahrenheit ;;
  let row5 := icon +:+ "  " +:+ description in
  let table := Table [ ["Temperature:"; row1];
                       ["Feels like:"; row2];
                       ["Humidity:"; row3];
                       ["Wind:"; row4];
                       ["Conditions:"; row5] ] in
  Ok (Panel (Group [Text ""; AlignCenter (Text icon); Text ""; table])
            ("[bold]Current Weather: " +:+ title +:+ "[/bold]")).

Definition display_current_weather (loc : location) (weather : json)
    (use_fahrenheit : bool) : io unit :=
  panel <~ io_lift (current_weather_panel loc weather use_fahrenheit) ;;
  io_emit (EConsole panel).

(** The body of the loop of [display_forecast] at index [i]. *)
Definition forecast_row (daily : json) (use_fahrenheit : bool) (i : nat)
    : result (list string) :=
  let at_i (field : string) : result json :=
    column <- subscript_key daily field ;;
    subscript_int column (Z.of_nat i) in
  date_str <- at_i "time" ;;
  dt <- datetime_fromisoformat date_str ;;
  let formatted_date := strftime_date dt in
  code <- at_i "weather_code" ;;
  icon <- get_weather_icon code ;;
  desc <- get_weather_description code ;;
  let conditions := icon +:+ "  " +:+ desc in
  tmax <- at_i "temperature_2m_max" ;;
  high <- format_temperature tmax use_fahrenheit ;;
  tmin <- at_i "temperature_2m_min" ;;
  low <- format_temperature tmin use_fahrenheit ;;
  rain <- at_i "precipitation_sum" ;;
  rain_1f <- format_1f rain ;;
  let precip := rain_1f +:+ " mm" in
  rise <- at_i "sunrise" ;;
  sunrise <- format_time rise ;;
  set <- at_i "sunset" ;;
  sunset <- format_time set ;;
  sunrise_cell <- table_cell sunrise ;;
  sunset_cell <- table_cell sunset ;;
  Ok [ formatted_date; conditions;
       "[red]" +:+ high +:+ "[/red]";
       "[blue]" +:+ low +:+ "[/blue]";
       precip; sunrise_cell; sunset_cell ].

Definition display_forecast (weather : json) (use_fahrenheit : bool) : io unit :=
  panel <~ io_lift
    (daily <- subscript_key weather "daily" ;;
     times <- subscript_key daily "time" ;;
     n <- py_len times ;;
     rows <- result_mapM (forecast_row daily use_fahrenheit) (seq 0 n) ;;
     Ok (Panel (Table rows) "[bold]5-Day Forecast[/bold]")) ;;
  io_emit (EConsole panel).

(** *** CLI and main *)

Definition main (net : network) (args : arguments) : io unit :=
  let city_name := String.concat " " (city args) in
  let use_fahrenheit := fahrenheit args in
  io_emit (EConsole (Str (newline +:+ "Fetching weather for [bold cyan]"
                           +:+ city_name +:+ "[/bold cyan]..." +:+ newline))) ;;;
  found <~ geocode_city net city_name ;;
  match found with
  | None =>
      io_emit (EConsole (Str ("[bold red]City not found:[/bold red] Could not find '"
                               +:+ city_name
                               +:+ "'. Please check the spelling and try again."))) ;;;
      sys_exit 1
  | Some loc =>
      weather <~ fetch_weather net (latitude loc) (longitude loc) use_fahrenheit ;;
      match weather with
      | JNull =>
          io_emit (EConsole (Str
            "[bold red]Error:[/bold red] Could not fetch weather data. Please try again later.")) ;;;
          sys_exit 1
      | _ =>
          display_current_weather loc weather use_fahrenheit ;;;
          io_emit EConsoleBlank ;;;
          display_forecast weather use_fahrenheit ;;;
          io_emit EConsoleBlank
      end
  end.

(** The [if __name__ == "__main__"] block. *)
Definition script (net : network) (args : arguments) : io unit :=
  io_try (main net args)
    (fun e =>
       match e with
       | KeyboardInterrupt =>
           Some (io_emit (EPrint (newline +:+ "Cancelled.")) ;;; sys_exit 0)
       | RequestException ConnectionError _ =>
           Some (io_emit (EPrint (newline +:+
                   "Error: No internet connection. Please check your network and try again.")) ;;;
                 sys_exit 1)
       | _ => None
       end).
End Program.


(** ** Reference instances and sample data

    The universal statements below hold for every [fromisoformat] and
    every [str]; concrete runs need one of each. *)

Module Plain.
Definition digit_value (c : ascii) : option Z :=
  let n := Z.of_nat (nat_of_ascii c) in
  if (48 <=? n) && (n <=? 57) then Some (n - 48) else None.

(** Exactly [width] decimal digits. *)
Fixpoint read_digits (width : nat) (cs : list ascii) (acc : Z)
    : option (Z * list ascii) :=
  match width, cs with
  | O, _ => Some (acc, cs)
  | S w, c :: rest =>
      match digit_value c with
      | Some v => read_digits w rest (acc * 10 + v)
      | None => None
      end
  | S _, [] => None
  end.

Definition expect (c : ascii) (cs : list ascii) : option (list ascii) :=
  match cs with
  | c' :: rest => if Ascii.eqb c c' then Some rest else None
  | [] => None
  end.

Definition days_in_month (y m : Z) : Z :=
  if m =? 2 then (if is_leap y then 29 else 28)
  else if (m =? 4) || (m =? 6) || (m =? 9) || (m =? 11) then 30
  else 31.

(** [HH:MM] or [HH:MM:SS]. *)
Definition read_time (cs : list ascii) : option (Z * Z * Z) :=
  '(h, cs) ← read_digits 2 cs 0;
  cs ← expect ":" cs;
  '(mi, cs) ← read_digits 2 cs 0;
  match cs with
  | [] => Some (h, mi, 0)
  | _ =>
      cs ← expect ":" cs;
      '(s, cs) ← read_digits 2 cs 0;
      match cs with
      | [] => Some (h, mi, s)
      | _ => None
      end
  end.

(** The part of [datetime.fromisoformat] that the forecast payload
    exercises: [YYYY-MM-DD], alone or followed by one separator
    character and [HH:MM] or [HH:MM:SS], with the ranges checked.
    Fractions of a second and UTC offsets are left out and refused. *)
Definition fromisoformat (s : string) : option datetime :=
  '(y, cs) ← read_digits 4 (list_ascii_of_string s) 0;
  cs ← expect "-" cs;
  '(mo, cs) ← read_digits 2 cs 0;
  cs ← expect "-" cs;
  '(d, cs) ← read_digits 2 cs 0;
  '(h, mi, sec) ← match cs with
                  | [] => Some (0, 0, 0)
                  | _ :: cs => read_time cs
                  end;
  if (1 <=? y) && (1 <=? mo) && (mo <=? 12) && (1 <=? d) && (d <=? days_in_month y mo)
     && (h <? 24) && (mi <? 60) && (sec <? 60)
  then Some {| year := y; month := mo; day := d;
               hour := h; minute := mi; second := sec |}
  else None.

(** The builtin [str] on [None], booleans, ints and strings; the sample
    payloads put nothing else where it is called. *)
Definition str (v : json) : string :=
  match v with
  | JNull => "None"
  | JBool b => if b then "True" else "False"
  | JInt z => pretty z
  | JStr s => s
  | _ => ""
  end.
End Plain.

Module Sample.
Definition ok_response (doc : json) : response :=
  {| status_code := 200; reason := "OK"; final_url := ""; content := Decoded doc |}.




(** [39.78], [-89.65], [21.04] and [12.3] as the JSON decoder reads them. *)
Definition decimal (n : Z) (scale : Z) : float :=
  Float64.div (Float64.of_scaled n 0) (Float64.of_scaled scale 0).

(** A first result that carries only its coordinates. *)
Definition bare_result : json :=
  JObj [("latitude", JFloat (decimal 3978 100));
        ("longitude", JFloat (decimal (-8965) 100))].

Definition net_bare_result : network :=
  fun _ _ => GetReturns (ok_response (JObj [("results", JArr [bare_result])])).

Definition springfield : location :=
  {| name := JStr "Springfield";
     latitude := JFloat (decimal 3978 100);
     longitude := JFloat (decimal (-8965) 100);
     country := JStr "United States";
     admin1 := JStr "Illinois" |}.

(** Current conditions without a [weather_code]. *)
Definition current_without_code : list (string * json) :=
  [("temperature_2m", JFloat (decimal 2104 100));
   ("relative_humidity_2m", JInt 40);
   ("apparent_temperature", JInt 20);
   ("wind_speed_10m", JFloat (decimal 123 10));
   ("wind_direction_10m", JInt 230)].

Definition forecast_doc : json :=
  JObj [("current", JObj (("weather_code", JInt 0) :: current_without_code));
        ("daily", JObj [("time", JArr [JStr "2024-03-10"]);
                        ("weather_code", JArr [JInt 3]);
                        ("temperature_2m_max", JArr [JFloat (decimal 225 10)]);
                        ("temperature_2m_min", JArr [JInt 11]);
                        ("precipitation_sum", JArr [JFloat (decimal 0 1)]);
                        ("sunrise", JArr [JStr "2024-03-10T06:45"]);
                        ("sunset", JArr [JStr "not-a-date"])])].



End Sample.

(** ** Auxiliary definitions for the proofs *)

(** What the [try] block of [geocode_city] computes from a response, as
    one computation without events. *)
Definition geocode_body (r : response) (city_name : string) : result (option location) :=
  _ <- raise_for_status r ;;
  data <- response_json r ;;
  present <- contains data "results" ;;
  if negb present then Ok None else
  results <- subscript_key data "results" ;;
  if negb (truthy results) then Ok None else
  results' <- subscript_key data "results" ;;
  result <- subscript_int results' 0 ;;
  name <- get_default result "name" (JStr city_name) ;;
  latitude <- subscript_key result "latitude" ;;
  longitude <- subscript_key result "longitude" ;;
  country <- get_default result "country" (JStr "") ;;
  admin1 <- get_default result "admin1" (JStr "") ;;
  Ok (Some {| name := name; latitude := latitude; longitude := longitude;
              country := country; admin1 := admin1 |}).

(** The line that [geocode_city] prints when the request fails. *)
Definition geocode_error_line (msg : string) : event :=
  EPrint ("[red]Error connecting to geocoding service: " +:+ msg +:+ "[/red]").

(** The two messages of [main] around the geocoding stage. *)
Definition fetching_line (city_name : string) : event :=
  EConsole (Str (newline +:+ "Fetching weather for [bold cyan]"
                  +:+ city_name +:+ "[/bold cyan]..." +:+ newline)).

Definition city_not_found_line (city_name : string) : event :=
  EConsole (Str ("[bold red]City not found:[/bold red] Could not find '"
                  +:+ city_name
                  +:+ "'. Please check the spelling and try again.")).




(** [P] holds at [lo], [lo + 1], ..., [lo + n - 1]. *)
Fixpoint holds_from (P : Z -> bool) (lo : Z) (n : nat) : bool :=
  match n with
  | O => true
  | S n' => P lo && holds_from P (lo + 1) n'
  end.




(** ** Further sample networks *)

Module More.







(** The answer of the geocoding service to a name it does not know: a
    document without [results]. *)
Definition net_unknown_place : network :=
  fun _ _ =>
    GetReturns (Sample.ok_response
                  (JObj [("generationtime_ms", JFloat (Sample.decimal 5 10))])).

(** A forecast whose first date does not parse. *)
Definition daily_bad_date : list (string * json) :=
  [("time", JArr [JStr "tomorrow"]);
   ("weather_code", JArr [JInt 3]);
   ("temperature_2m_max", JArr [JInt 22]);
   ("temperature_2m_min", JArr [JInt 11]);
   ("precipitation_sum", JArr [JInt 0]);
   ("sunrise", JArr [JStr "2024-03-10T06:45"]);
   ("sunset", JArr [JStr "2024-03-10T18:02"])].


(** A forecast of two days whose [weather_code] column has one entry. *)
Definition daily_short_column : list (string * json) :=
  [("time", JArr [JStr "2024-03-10"; JStr "2024-03-11"]);
   ("weather_code", JArr [JInt 3]);
   ("temperature_2m_max", JArr [JInt 22; JInt 23]);
   ("temperature_2m_min", JArr [JInt 11; JInt 12]);
   ("precipitation_sum", JArr [JInt 0; JInt 1]);
   ("sunrise", JArr [JStr "2024-03-10T06:45"; JStr "2024-03-11T06:44"]);
   ("sunset", JArr [JStr "2024-03-10T18:02"; JStr "2024-03-11T18:03"])].
End More.

(** ** Auxiliary definitions for the further properties *)

(** [r] raises nothing but exceptions accepted by [P]. *)
Definition raises_only {A} (P : exn -> bool) (r : result A) : Prop :=
  forall e, r = Raise e -> P e = true.

(** The exceptions that reading and formatting the payload can raise:
    everything but the request errors, the interrupt and the exit. *)
Definition data_error (e : exn) : bool :=
  match e with
  | RequestException _ _ | KeyboardInterrupt | SystemExit _ => false
  | _ => true
  end.

(** The exceptions of arithmetic on a value that is not a finite
    number. *)
Definition number_error (e : exn) : bool :=
  match e with
  | TypeError | ValueError | OverflowError => true
  | _ => false
  end.

(** The sector of a whole number of degrees: sixteen sectors of 22.5
    degrees, each centred on its bearing. *)
Definition sector (d : Z) : Z := ((4 * d + 45) / 90) mod 16.

Definition wind_index_is_sector (d : Z) : bool :=
  match wind_index (JInt d) with
  | Ok index => index =? sector d
  | Raise _ => false
  end.


(** The other messages of [main] and of the script. *)
Definition weather_unavailable_line : event :=
  EConsole (Str
    "[bold red]Error:[/bold red] Could not fetch weather data. Please try again later.").

Definition cancelled_line : event := EPrint (newline +:+ "Cancelled.").

Definition no_connection_line : event :=
  EPrint (newline +:+
    "Error: No internet connection. Please check your network and try again.").

(** The panel that [display_forecast] builds before it prints it. *)
Definition forecast_panel (fromisoformat : string -> option datetime)
    (weather : json) (use_fahrenheit : bool) : result renderable :=
  daily <- subscript_key weather "daily" ;;
  times <- subscript_key daily "time" ;;
  n <- py_len times ;;
  rows <- result_mapM (forecast_row fromisoformat daily use_fahrenheit) (seq 0 n) ;;
  Ok (Panel (Table rows) "[bold]5-Day Forecast[/bold]").

(** The parts of the title of the current-weather panel. *)
Definition title_parts (loc_name admin country : string) : list string :=
  ([loc_name]
   ++ (if String.eqb admin "" then [] else [admin])
   ++ (if String.eqb country "" then [] else [country]))%list.

(** * Properties *)

(** ** Binary64 division by 22.5 never overflows *)

Module Float64Facts.
Import Float64.

(** Number of binary digits, as the rounding functions count them. *)
Abbreviation digits := Zdigits2.




















End Float64Facts.

(** ** Wind direction *)

Lemma holds_from_spec (P : Z -> bool) (n : nat) (lo d : Z) :
  holds_from P lo n = true -> lo <= d < lo + Z.of_nat n -> P d = true.
Proof.
  revert lo. induction n as [| n IH]; intros lo H Hd; [lia |].
  simpl in H. apply andb_prop in H as [H0 Hrest].
  destruct (Z.eq_dec d lo) as [-> | Hne]; [exact H0 |].
  apply (IH (lo + 1)); [exact Hrest | lia].
Qed.

Lemma holds_from_range (P : Z -> bool) (lo hi d : Z) :
  holds_from P lo (Z.to_nat (hi - lo + 1)) = true -> lo <= d <= hi -> P d = true.
Proof.
  intros H Hd. apply (holds_from_spec P _ lo d H).
  rewrite Z2Nat.id by lia. lia.
Qed.


Lemma format_wind_unfold (speed direction : json) (use_fahrenheit : bool) (cardinal : string) :
  wind_cardinal direction = Ok cardinal ->
  format_wind speed direction use_fahrenheit =
    (s <- format_1f speed ;;
     Ok (s +:+ " " +:+ (if use_fahrenheit then "mph" else "km/h") +:+ " " +:+ cardinal)).
Proof. intros H. unfold format_wind. rewrite H. reflexivity. Qed.

Lemma wind_index_range (direction : json) (index : Z) :
  wind_index direction = Ok index -> 0 <= index < 16.
Proof.
  unfold wind_index. destruct (float_operand direction) as [d | e]; [| discriminate].
  simpl. destruct (py_round _) as [n | e]; [| discriminate].
  simpl. intros [= <-]. apply Z.mod_pos_bound. lia.
Qed.

Lemma cardinal_lookup (index : Z) :
  0 <= index < 16 ->
  exists cardinal, CARDINAL_DIRECTIONS !! Z.to_nat index = Some cardinal
                   /\ list_index CARDINAL_DIRECTIONS index = Ok cardinal.
Proof.
  intros H. unfold list_index. simpl length.
  replace (index <? 0) with false by (symmetry; apply Z.ltb_ge; lia).
  replace ((0 <=? index) && (index <? Z.of_nat 16)) with true
    by (symmetry; apply andb_true_intro; split; [apply Z.leb_le | apply Z.ltb_lt]; lia).
  destruct (CARDINAL_DIRECTIONS !! Z.to_nat index) as [c |] eqn:Hc; [eauto |].
  apply lookup_ge_None in Hc. simpl in Hc. lia.
Qed.

(** C5. The compass sequence has the 16 labels from N clockwise.  At 0,
    90, 180 and 270 degrees, sent as an int or as a float, the index
    [round(degrees / 22.5) % 16] is 0, 4, 8 and 12 and [format_wind]
    ends its text with N, E, S and W, whatever the speed and the unit
    system. *)
Theorem format_wind_compass_points (speed : json) (use_fahrenheit : bool) :
  let unit := if use_fahrenheit then "mph" else "km/h" in
  let labelled (direction : json) (index : Z) (cardinal : string) : Prop :=
    wind_index direction = Ok index
    /\ list_index CARDINAL_DIRECTIONS index = Ok cardinal
    /\ format_wind speed direction use_fahrenheit =
         (s <- format_1f speed ;; Ok (s +:+ " " +:+ unit +:+ " " +:+ cardinal)) in
  CARDINAL_DIRECTIONS
  = ["N"; "NNE"; "NE"; "ENE"; "E"; "ESE"; "SE"; "SSE";
     "S"; "SSW"; "SW"; "WSW"; "W"; "WNW"; "NW"; "NNW"] /\
  labelled (JInt 0) 0 "N" /\ labelled (JInt 90) 4 "E" /\
  labelled (JInt 180) 8 "S" /\ labelled (JInt 270) 12 "W" /\
  labelled (JFloat (Float64.of_scaled 0 0)) 0 "N" /\
  labelled (JFloat (Float64.of_scaled 90 0)) 4 "E" /\
  labelled (JFloat (Float64.of_scaled 180 0)) 8 "S" /\
  labelled (JFloat (Float64.of_scaled 270 0)) 12 "W".
Proof.
  cbv zeta.
  repeat split;
    solve [ vm_compute; reflexivity
          | apply format_wind_unfold; vm_compute; reflexivity ].
Qed.







(** Outside the real values the failure comes before any lookup. *)
Example wind_cardinal_huge_int : wind_cardinal (JInt (10 ^ 400)) = Raise OverflowError.
Proof. vm_compute. reflexivity. Qed.

Example wind_cardinal_nan : wind_cardinal (JFloat S754_nan) = Raise ValueError.
Proof. reflexivity. Qed.

(** ** Weather codes *)

Lemma weather_code_unknown (code : Z) :
  WEATHER_CODES !! code = None ->
  get_weather_description (JInt code) = Ok "Unknown"
  /\ get_weather_icon (JInt code) = Ok "🌡️".
Proof.
  intros H. unfold get_weather_description, get_weather_icon, in_weather_codes.
  cbn [int_key result_bind weather_codes_entry]. rewrite H. split; reflexivity.
Qed.

(** C3. The lookup returns for each of the 28 codes of the table its
    description and its icon, and for every other integer code the pair
    ["Unknown"], ["🌡️"]; it returns for every integer. *)
Theorem weather_code_lookup_total :
  Forall (fun '(code, description, icon) =>
            get_weather_description (JInt code) = Ok description
            /\ get_weather_icon (JInt code) = Ok icon)
    [ (0, "Clear sky", "☀️");
      (1, "Mainly clear", "🌤️");
      (2, "Partly cloudy", "⛅");
      (3, "Overcast", "☁️");
      (45, "Fog", "🌫️");
      (48, "Depositing rime fog", "🌫️");
      (51, "Light drizzle", "🌦️");
      (53, "Moderate drizzle", "🌦️");
      (55, "Dense drizzle", "🌧️");
      (56, "Light freezing drizzle", "🌧️");
      (57, "Dense freezing drizzle", "🌧️");
      (61, "Slight rain", "🌧️");
      (63, "Moderate rain", "🌧️");
      (65, "Heavy rain", "🌧️");
      (66, "Light freezing rain", "🌧️");
      (67, "Heavy freezing rain", "🌧️");
      (71, "Slight snowfall", "❄️");
      (73, "Moderate snowfall", "❄️");
      (75, "Heavy snowfall", "❄️");
      (77, "Snow grains", "❄️");
      (80, "Slight rain showers", "🌦️");
      (81, "Moderate rain showers", "🌦️");
      (82, "Violent rain showers", "🌧️");
      (85, "Slight snow showers", "❄️");
      (86, "Heavy snow showers", "❄️");
      (95, "Thunderstorm", "⛈️");
      (96, "Thunderstorm with slight hail", "⛈️");
      (99, "Thunderstorm with heavy hail", "⛈️") ]
  /\ (forall code : Z,
        code ∉ [0; 1; 2; 3; 45; 48; 51; 53; 55; 56; 57; 61; 63; 65; 66; 67;
                71; 73; 75; 77; 80; 81; 82; 85; 86; 95; 96; 99] ->
        get_weather_description (JInt code) = Ok "Unknown"
        /\ get_weather_icon (JInt code) = Ok "🌡️")
  /\ (forall code : Z,
        is_ok (get_weather_description (JInt code)) = true
        /\ is_ok (get_weather_icon (JInt code)) = true).
Proof.
  split; [| split].
  - repeat (constructor; [split; vm_compute; reflexivity |]). constructor.
  - intros code Hout. apply weather_code_unknown.
    unfold WEATHER_CODES. apply not_elem_of_list_to_map_1. exact Hout.
  - intros code.
    unfold get_weather_description, get_weather_icon, in_weather_codes,
      weather_codes_item.
    cbn [int_key result_bind weather_codes_entry].
    destruct (WEATHER_CODES !! code) as [[d i] |]; split; reflexivity.
Qed.

Lemma weather_code_lookup_total_witness :
  get_weather_description (JInt 4) = Ok "Unknown"
  /\ get_weather_icon (JInt 4) = Ok "🌡️".
Proof.
  apply (proj1 (proj2 weather_code_lookup_total) 4).
  rewrite !not_elem_of_cons. repeat split; try lia. apply not_elem_of_nil.
Defined.

(** ** The two requests *)

Arguments geocoding_params : simpl never.
Arguments weather_params : simpl never.

(** What [fetch_weather] does, case by case on what the network gives. *)
Lemma fetch_weather_unfold (net : network) (lat lon : json) (use_fahrenheit : bool) :
  let params := weather_params lat lon use_fahrenheit in
  fetch_weather net lat lon use_fahrenheit =
    match net WEATHER_URL params with
    | GetFails _ msg =>
        ([EGet WEATHER_URL params 10;
          EPrint ("[red]Error fetching weather data: " +:+ msg +:+ "[/red]")], Ok JNull)
    | GetInterrupted => ([EGet WEATHER_URL params 10], Raise KeyboardInterrupt)
    | GetReturns r =>
        match raise_for_status r with
        | Raise (RequestException _ msg) =>
            ([EGet WEATHER_URL params 10;
              EPrint ("[red]Error fetching weather data: " +:+ msg +:+ "[/red]")], Ok JNull)
        | Raise e => ([EGet WEATHER_URL params 10], Raise e)
        | Ok _ =>
            match content r with
            | Decoded doc => ([EGet WEATHER_URL params 10], Ok doc)
            | Undecodable msg =>
                ([EGet WEATHER_URL params 10;
                  EPrint ("[red]Error fetching weather data: " +:+ msg +:+ "[/red]")],
                 Ok JNull)
            end
        end
    end.
Proof.
  cbv zeta. unfold fetch_weather, requests_get, io_try, io_bind, io_emit, io_raise,
    io_ret, io_lift, response_json.
  destruct (net WEATHER_URL _) as [kind msg | | r]; try reflexivity.
  destruct (raise_for_status r) as [[] | e]; [| destruct e; reflexivity].
  destruct (content r); reflexivity.
Qed.

(** C8. The forecast request always carries [timezone=auto] and
    [forecast_days=5]; it carries [temperature_unit=fahrenheit] and
    [wind_speed_unit=mph] exactly when the Fahrenheit flag is set; that
    query is the one sent; the decoded payload is returned as it came,
    whatever the flag; and the flag changes the suffix of a formatted
    temperature, not its digits. *)
Theorem forecast_request_follows_unit_flag
    (net : network) (lat lon : json) (use_fahrenheit : bool) :
  let params := weather_params lat lon use_fahrenheit in
  params !! "timezone" = Some (JStr "auto")
  /\ params !! "forecast_days" = Some (JInt 5)
  /\ params !! "temperature_unit"
     = (if use_fahrenheit then Some (JStr "fahrenheit") else None)
  /\ params !! "wind_speed_unit"
     = (if use_fahrenheit then Some (JStr "mph") else None)
  /\ params !! "latitude" = Some lat
  /\ params !! "longitude" = Some lon
  /\ dom params
     = {[ "latitude"; "longitude"; "current"; "daily"; "timezone"; "forecast_days" ]}
       ∪ (if use_fahrenheit then {[ "temperature_unit"; "wind_speed_unit" ]} else ∅)
  /\ (exists rest,
        trace (fetch_weather net lat lon use_fahrenheit)
        = EGet WEATHER_URL params 10 :: rest)
  /\ outcome (fetch_weather net lat lon use_fahrenheit)
     = match net WEATHER_URL params with
       | GetFails _ _ => Ok JNull
       | GetInterrupted => Raise KeyboardInterrupt
       | GetReturns r =>
           match raise_for_status r, content r with
           | Ok _, Decoded doc => Ok doc
           | _, _ => Ok JNull
           end
       end
  /\ (forall temp : json,
        format_temperature temp use_fahrenheit
        = (digits <- format_1f temp ;;
           Ok (digits +:+ (if use_fahrenheit then "°F" else "°C")))).
Proof.
  cbv zeta.
  repeat match goal with |- _ /\ _ => split end.
  1-6: destruct use_fahrenheit; vm_compute; reflexivity.
  - destruct use_fahrenheit; unfold weather_params;
      rewrite ?dom_insert_L, ?dom_singleton_L; set_solver.
  - rewrite fetch_weather_unfold. cbv zeta.
    destruct (net WEATHER_URL _) as [kind msg | | r]; [eexists; reflexivity.. |].
    destruct (raise_for_status r) as [[] | e]; [| destruct e; eexists; reflexivity].
    destruct (content r); eexists; reflexivity.
  - rewrite fetch_weather_unfold. cbv zeta.
    destruct (net WEATHER_URL _) as [kind msg | | r]; try reflexivity.
    destruct (raise_for_status r) as [[] | e] eqn:Hs.
    + destruct (content r); reflexivity.
    + unfold raise_for_status in Hs.
      repeat match type of Hs with
             | (if ?c then _ else _) = _ => destruct c
             end; try discriminate; injection Hs as <-; reflexivity.
  - intros temp. destruct use_fahrenheit; reflexivity.
Qed.

(** What [geocode_city] does, case by case on what the network gives. *)
Lemma geocode_city_unfold (net : network) (city_name : string) :
  let request := EGet GEOCODING_URL (geocoding_params city_name) 10 in
  geocode_city net city_name =
    match net GEOCODING_URL (geocoding_params city_name) with
    | GetFails _ msg => ([request; geocode_error_line msg], Ok None)
    | GetInterrupted => ([request], Raise KeyboardInterrupt)
    | GetReturns r =>
        match geocode_body r city_name with
        | Ok found => ([request], Ok found)
        | Raise (RequestException _ msg) => ([request; geocode_error_line msg], Ok None)
        | Raise e => ([request], Raise e)
        end
    end.
Proof.
  cbv zeta. unfold geocode_city, geocode_body, requests_get, geocode_error_line.
  unfold io_try, io_bind, io_emit, io_raise, io_ret, io_lift, result_bind.
  destruct (net GEOCODING_URL _) as [kind msg | | r]; try reflexivity.
  repeat match goal with
         | |- context [match ?x with _ => _ end] =>
             lazymatch x with
             | context [match _ with _ => _ end] => fail
             | _ => destruct x eqn:?
             end
         end; try reflexivity.
Qed.

Lemma list_index_head {A} (x : A) (l : list A) : list_index (x :: l) 0 = Ok x.
Proof.
  unfold list_index. cbn [length Z.ltb Z.compare].
  rewrite Nat2Z.inj_succ.
  replace ((0 <=? 0) && (0 <? Z.succ (Z.of_nat (length l)))) with true; [reflexivity |].
  symmetry. apply andb_true_intro. split; [reflexivity | apply Z.ltb_lt; lia].
Qed.

(** C7. When the first result lacks [country] or [admin1], the location
    gets the empty string there, and when it lacks [name], the place
    name that was asked for; a result that has them keeps them.  The
    coordinates are taken as they are. *)
Theorem geocode_defaults_for_missing_fields
    (net : network) (city_name : string) (r : response)
    (kv first : list (string * json)) (rest : list json) (lat lon : json) :
  net GEOCODING_URL (geocoding_params city_name) = GetReturns r ->
  raise_for_status r = Ok tt ->
  content r = Decoded (JObj kv) ->
  dict_lookup "results" kv = Some (JArr (JObj first :: rest)) ->
  dict_lookup "latitude" first = Some lat ->
  dict_lookup "longitude" first = Some lon ->
  outcome (geocode_city net city_name)
  = Ok (Some {| name := match dict_lookup "name" first with
                        | Some v => v
                        | None => JStr city_name
                        end;
                latitude := lat;
                longitude := lon;
                country := match dict_lookup "country" first with
                           | Some v => v
                           | None => JStr ""
                           end;
                admin1 := match dict_lookup "admin1" first with
                          | Some v => v
                          | None => JStr ""
                          end |}).
Proof.
  intros Hnet Hstatus Hcontent Hresults Hlat Hlon.
  rewrite geocode_city_unfold. cbv zeta. rewrite Hnet.
  unfold geocode_body, response_json. rewrite Hstatus, Hcontent.
  cbn [result_bind contains subscript_key]. rewrite Hresults.
  cbn [negb truthy result_bind subscript_int]. rewrite list_index_head.
  cbn [result_bind get_default subscript_key]. rewrite Hlat, Hlon.
  destruct (dict_lookup "name" first), (dict_lookup "country" first),
    (dict_lookup "admin1" first); reflexivity.
Qed.

Lemma geocode_defaults_for_missing_fields_witness :
  outcome (geocode_city Sample.net_bare_result "Springfield")
  = Ok (Some {| name := JStr "Springfield";
                latitude := JFloat (Sample.decimal 3978 100);
                longitude := JFloat (Sample.decimal (-8965) 100);
                country := JStr "";
                admin1 := JStr "" |}).
Proof.
  apply (geocode_defaults_for_missing_fields Sample.net_bare_result "Springfield"
           (Sample.ok_response (JObj [("results", JArr [Sample.bare_result])]))
           [("results", JArr [Sample.bare_result])]
           [("latitude", JFloat (Sample.decimal 3978 100));
            ("longitude", JFloat (Sample.decimal (-8965) 100))]
           []); reflexivity.
Defined.

(** ** The pipeline *)








(** ** Clock times *)

(** C4. [format_time] never raises.  On a string it returns the clock
    time when the string parses and the string itself, unchanged, when
    it does not; on a value that is not a string it returns that value.
    With the reference parser, ["2024-03-10T06:45:00"] gives
    ["6:45 AM"] and ["not-a-date"] comes back as it is. *)
Theorem format_time_never_raises
    (fromisoformat : string -> option datetime) (iso_str : string) :
  format_time fromisoformat (JStr iso_str)
  = Ok (match fromisoformat iso_str with
        | Some dt => JStr (strftime_clock dt)
        | None => JStr iso_str
        end)
  /\ (forall v : json, exists out, format_time fromisoformat v = Ok out)
  /\ format_time Plain.fromisoformat (JStr "2024-03-10T06:45:00") = Ok (JStr "6:45 AM")
  /\ format_time Plain.fromisoformat (JStr "not-a-date") = Ok (JStr "not-a-date").
Proof.
  split; [| split; [| split; vm_compute; reflexivity]].
  - unfold format_time, datetime_fromisoformat.
    destruct (fromisoformat iso_str); reflexivity.
  - intros v. unfold format_time, datetime_fromisoformat.
    destruct v as [| b | z | f | s | l | kv]; try (eexists; reflexivity).
    destruct (fromisoformat s); eexists; reflexivity.
Qed.

(** ** Current conditions *)

(** C10. Without a [weather_code] in the current conditions, the panel
    is built with the icon and the description of code 0; without any
    of the five other fields, building the panel raises and nothing is
    printed. *)
Theorem current_weather_code_defaults_to_clear_sky
    (py_str : json -> string) (loc : location) (weather : json)
    (current : list (string * json)) (use_fahrenheit : bool) :
  subscript_key weather "current" = Ok (JObj current) ->
  (dict_lookup "weather_code" current = None ->
   forall (parts : list string) (temperature apparent humidity speed direction : json)
          (row1 row2 row4 : string),
     join_parts ([name loc]
                 ++ (if truthy (admin1 loc) then [admin1 loc] else [])
                 ++ (if truthy (country loc) then [country loc] else []))%list
     = Ok parts ->
     dict_lookup "temperature_2m" current = Some temperature ->
     format_temperature temperature use_fahrenheit = Ok row1 ->
     dict_lookup "apparent_temperature" current = Some apparent ->
     format_temperature apparent use_fahrenheit = Ok row2 ->
     dict_lookup "relative_humidity_2m" current = Some humidity ->
     dict_lookup "wind_speed_10m" current = Some speed ->
     dict_lookup "wind_direction_10m" current = Some direction ->
     format_wind speed direction use_fahrenheit = Ok row4 ->
     current_weather_panel py_str loc weather use_fahrenheit
     = Ok (Panel
             (Group [Text ""; AlignCenter (Text "☀️"); Text "";
                     Table [ ["Temperature:"; row1];
                             ["Feels like:"; row2];
                             ["Humidity:"; py_str humidity +:+ "%"];
                             ["Wind:"; row4];
                             ["Conditions:"; "☀️  Clear sky"] ]])
             ("[bold]Current Weather: " +:+ String.concat ", " parts +:+ "[/bold]")))
  /\ (forall field : string,
        field ∈ ["temperature_2m"; "apparent_temperature"; "relative_humidity_2m";
                 "wind_speed_10m"; "wind_direction_10m"] ->
        dict_lookup field current = None ->
        exists e,
          current_weather_panel py_str loc weather use_fahrenheit = Raise e
          /\ display_current_weather py_str loc weather use_fahrenheit = ([], Raise e)).
Proof.
  intros Hcurrent. split.
  - intros Hcode parts temperature apparent humidity speed direction row1 row2 row4
      Hparts Ht Hrow1 Ha Hrow2 Hh Hs Hd Hrow4.
    unfold current_weather_panel. rewrite Hcurrent.
    cbn [result_bind get_default subscript_key]. rewrite Hcode.
    replace (get_weather_icon (JInt 0)) with (Ok (A := string) "☀️")
      by (vm_compute; reflexivity).
    replace (get_weather_description (JInt 0)) with (Ok (A := string) "Clear sky")
      by (vm_compute; reflexivity).
    cbn [result_bind]. rewrite Hparts. cbn [result_bind].
    rewrite Ht, Ha, Hh, Hs, Hd. cbn [result_bind].
    rewrite Hrow1. cbn [result_bind]. rewrite Hrow2. cbn [result_bind].
    rewrite Hrow4. reflexivity.
  - intros field Hin Hmissing.
    assert (Hpanel : exists e,
               current_weather_panel py_str loc weather use_fahrenheit = Raise e).
    { unfold current_weather_panel. rewrite Hcurrent.
      cbn [result_bind get_default subscript_key].
      repeat (apply elem_of_cons in Hin as [-> | Hin]);
        [.. | apply elem_of_nil in Hin; contradiction];
        rewrite Hmissing;
        repeat match goal with
               | |- exists e, Raise _ = Raise e => eexists; reflexivity
               | |- exists e, result_bind ?m _ = Raise e =>
                   destruct m; cbn [result_bind]
               end. }
    destruct Hpanel as [e He]. exists e. split; [exact He |].
    unfold display_current_weather, io_bind, io_lift. rewrite He. reflexivity.
Qed.

Lemma current_weather_code_defaults_to_clear_sky_witness :
  current_weather_panel Plain.str Sample.springfield
    (JObj [("current", JObj Sample.current_without_code)]) false
  = Ok (Panel
          (Group [Text ""; AlignCenter (Text "☀️"); Text "";
                  Table [ ["Temperature:"; "21.0°C"];
                          ["Feels like:"; "20.0°C"];
                          ["Humidity:"; "40%"];
                          ["Wind:"; "12.3 km/h SW"];
                          ["Conditions:"; "☀️  Clear sky"] ]])
          "[bold]Current Weather: Springfield, Illinois, United States[/bold]").
Proof.
  apply (proj1 (current_weather_code_defaults_to_clear_sky Plain.str Sample.springfield
                  (JObj [("current", JObj Sample.current_without_code)])
                  Sample.current_without_code false eq_refl)
           eq_refl
           ["Springfield"; "Illinois"; "United States"]
           (JFloat (Sample.decimal 2104 100)) (JInt 20) (JInt 40)
           (JFloat (Sample.decimal 123 10)) (JInt 230)
           "21.0°C" "20.0°C" "12.3 km/h SW");
    vm_compute; reflexivity.
Defined.

Example current_weather_without_temperature :
  current_weather_panel Plain.str Sample.springfield
    (JObj [("current", JObj [("weather_code", JInt 0)])]) false
  = Raise (KeyError (JStr "temperature_2m")).
Proof. vm_compute. reflexivity. Qed.

(** * Further properties *)

(** ** What the helpers can raise *)

Lemma raises_only_ok {A} (P : exn -> bool) (a : A) : raises_only P (Ok a).
Proof. intros e H. discriminate. Qed.

Lemma raises_only_raise {A} (P : exn -> bool) (e : exn) :
  P e = true -> raises_only (A := A) P (Raise e).
Proof. intros H e' [= <-]. exact H. Qed.

Lemma raises_only_bind {A B} (P : exn -> bool) (m : result A) (k : A -> result B) :
  raises_only P m -> (forall a, m = Ok a -> raises_only P (k a)) ->
  raises_only P (result_bind m k).
Proof.
  intros Hm Hk e. destruct m as [a | e']; simpl.
  - apply (Hk a eq_refl).
  - intros [= <-]. apply Hm. reflexivity.
Qed.

Lemma raises_only_weaken {A} (P Q : exn -> bool) (r : result A) :
  (forall e, P e = true -> Q e = true) -> raises_only P r -> raises_only Q r.
Proof. intros HPQ H e He. apply HPQ, H, He. Qed.

Lemma number_error_data_error (e : exn) : number_error e = true -> data_error e = true.
Proof. destruct e; simpl; congruence. Qed.

Create HintDb raises.

(** Splits a computation along its binds and its tests. *)
Ltac raises :=
  repeat first
    [ apply raises_only_ok
    | apply raises_only_raise; reflexivity
    | solve [auto with raises]
    | apply raises_only_bind; [| intros ? _]
    | match goal with
      | |- raises_only _ (if ?c then _ else _) => destruct c
      | |- raises_only _ (match ?x with _ => _ end) => destruct x
      end ].

Lemma list_index_raises {A} (l : list A) (i : Z) : raises_only data_error (list_index l i).
Proof. unfold list_index. cbv zeta. raises. Qed.
#[export] Hint Resolve list_index_raises : raises.

Lemma subscript_key_raises (v : json) (key : string) :
  raises_only data_error (subscript_key v key).
Proof. unfold subscript_key. raises. Qed.

Lemma subscript_int_raises (v : json) (i : Z) : raises_only data_error (subscript_int v i).
Proof. unfold subscript_int, str_index. raises. Qed.

Lemma get_default_raises (v : json) (key : string) (d : json) :
  raises_only data_error (get_default v key d).
Proof. unfold get_default. raises. Qed.

Lemma contains_raises (v : json) (key : string) : raises_only data_error (contains v key).
Proof. unfold contains. raises. Qed.
#[export] Hint Resolve subscript_key_raises subscript_int_raises get_default_raises
  contains_raises : raises.

Lemma int_to_float_raises (z : Z) : raises_only number_error (int_to_float z).
Proof. unfold int_to_float. cbv zeta. raises. Qed.

Lemma format_1f_raises (v : json) : raises_only number_error (format_1f v).
Proof.
  unfold format_1f. destruct v; raises; apply int_to_float_raises.
Qed.

Lemma float_operand_raises (v : json) : raises_only number_error (float_operand v).
Proof. unfold float_operand. destruct v; raises; apply int_to_float_raises. Qed.

Lemma py_round_raises (f : float) : raises_only number_error (py_round f).
Proof. unfold py_round. raises. Qed.
#[export] Hint Resolve int_to_float_raises format_1f_raises float_operand_raises
  py_round_raises : raises.

Lemma wind_index_raises (direction : json) : raises_only number_error (wind_index direction).
Proof. unfold wind_index. raises. Qed.
#[export] Hint Resolve wind_index_raises : raises.

Lemma wind_cardinal_raises (direction : json) :
  raises_only number_error (wind_cardinal direction).
Proof.
  unfold wind_cardinal. apply raises_only_bind; [auto with raises |].
  intros index Hindex e He.
  destruct (cardinal_lookup index (wind_index_range _ _ Hindex)) as (c & _ & Hc).
  congruence.
Qed.
#[export] Hint Resolve wind_cardinal_raises : raises.



Lemma format_wind_raises (speed direction : json) (use_fahrenheit : bool) :
  raises_only data_error (format_wind speed direction use_fahrenheit).
Proof.
  apply (raises_only_weaken number_error); [apply number_error_data_error |].
  unfold format_wind. cbv zeta. raises.
Qed.

Lemma format_temperature_raises (temp : json) (use_fahrenheit : bool) :
  raises_only data_error (format_temperature temp use_fahrenheit).
Proof.
  apply (raises_only_weaken number_error); [apply number_error_data_error |].
  unfold format_temperature. cbv zeta. raises.
Qed.

Lemma format_1f_data_raises (v : json) : raises_only data_error (format_1f v).
Proof.
  apply (raises_only_weaken number_error); [apply number_error_data_error |].
  apply format_1f_raises.
Qed.

Lemma get_weather_icon_raises (code : json) : raises_only data_error (get_weather_icon code).
Proof.
  unfold get_weather_icon, in_weather_codes, weather_codes_item, int_key.
  destruct code; cbn [result_bind]; raises.
Qed.

Lemma get_weather_description_raises (code : json) :
  raises_only data_error (get_weather_description code).
Proof.
  unfold get_weather_description, in_weather_codes, weather_codes_item, int_key.
  destruct code; cbn [result_bind]; raises.
Qed.

Lemma join_parts_raises (parts : list json) : raises_only data_error (join_parts parts).
Proof.
  induction parts as [| v rest IH]; simpl; [raises |].
  destruct v; raises.
Qed.

Lemma py_len_raises (v : json) : raises_only data_error (py_len v).
Proof. unfold py_len. raises. Qed.

Lemma table_cell_raises (v : json) : raises_only data_error (table_cell v).
Proof. unfold table_cell. raises. Qed.
#[export] Hint Resolve format_wind_raises format_temperature_raises format_1f_data_raises
  get_weather_icon_raises get_weather_description_raises join_parts_raises
  py_len_raises table_cell_raises : raises.

Lemma result_mapM_raises {A B} (P : exn -> bool) (f : A -> result B) (l : list A) :
  (forall x, raises_only P (f x)) -> raises_only P (result_mapM f l).
Proof.
  intros Hf. induction l as [| x rest IH]; simpl; [apply raises_only_ok |].
  apply raises_only_bind; [apply Hf | intros y _].
  apply raises_only_bind; [exact IH | intros ys _; apply raises_only_ok].
Qed.

Section ProgramRaises.
Variable fromisoformat : string -> option datetime.
Variable py_str : json -> string.

Lemma datetime_fromisoformat_raises (v : json) :
  raises_only data_error (datetime_fromisoformat fromisoformat v).
Proof. unfold datetime_fromisoformat. raises. Qed.

Lemma format_time_ok (v : json) : exists out, format_time fromisoformat v = Ok out.
Proof.
  unfold format_time, datetime_fromisoformat.
  destruct v as [| b | z | f | s | l | kv]; try (eexists; reflexivity).
  destruct (fromisoformat s); eexists; reflexivity.
Qed.

Lemma format_time_raises (v : json) : raises_only data_error (format_time fromisoformat v).
Proof. intros e H. destruct (format_time_ok v) as [out Hout]. congruence. Qed.

#[local] Hint Resolve datetime_fromisoformat_raises format_time_raises : raises.

Lemma current_weather_panel_raises (loc : location) (weather : json) (uf : bool) :
  raises_only data_error (current_weather_panel py_str loc weather uf).
Proof. unfold current_weather_panel. cbv zeta. raises. Qed.

Lemma forecast_row_raises (daily : json) (uf : bool) (i : nat) :
  raises_only data_error (forecast_row fromisoformat daily uf i).
Proof. unfold forecast_row. cbv zeta. raises. Qed.

Lemma forecast_panel_raises (weather : json) (uf : bool) :
  raises_only data_error (forecast_panel fromisoformat weather uf).
Proof.
  unfold forecast_panel. raises.
  apply result_mapM_raises. intros i. apply forecast_row_raises.
Qed.
End ProgramRaises.

(** ** The pipeline, stage by stage *)

Lemma display_current_weather_unfold (py_str : json -> string) (loc : location)
    (weather : json) (uf : bool) :
  display_current_weather py_str loc weather uf
  = match current_weather_panel py_str loc weather uf with
    | Ok panel => ([EConsole panel], Ok tt)
    | Raise e => ([], Raise e)
    end.
Proof.
  unfold display_current_weather, io_bind, io_lift, io_emit.
  destruct (current_weather_panel py_str loc weather uf); reflexivity.
Qed.

Lemma display_forecast_unfold (fromisoformat : string -> option datetime)
    (weather : json) (uf : bool) :
  display_forecast fromisoformat weather uf
  = match forecast_panel fromisoformat weather uf with
    | Ok panel => ([EConsole panel], Ok tt)
    | Raise e => ([], Raise e)
    end.
Proof.
  unfold display_forecast. fold (forecast_panel fromisoformat weather uf).
  unfold io_bind, io_lift, io_emit.
  destruct (forecast_panel fromisoformat weather uf); reflexivity.
Qed.

(** What [main] does, case by case on what its two stages and the two
    panels give. *)
Lemma main_unfold (fromisoformat : string -> option datetime) (py_str : json -> string)
    (net : network) (args : arguments) :
  let city_name := String.concat " " (city args) in
  let uf := fahrenheit args in
  main fromisoformat py_str net args
  = match geocode_city net city_name with
    | (t1, Raise e) => (fetching_line city_name :: t1, Raise e)
    | (t1, Ok None) =>
        ((fetching_line city_name :: t1 ++ [city_not_found_line city_name])%list,
         Raise (SystemExit 1))
    | (t1, Ok (Some loc)) =>
        match fetch_weather net (latitude loc) (longitude loc) uf with
        | (t2, Raise e) => (fetching_line city_name :: t1 ++ t2, Raise e)
        | (t2, Ok JNull) =>
            (fetching_line city_name :: t1 ++ t2 ++ [weather_unavailable_line],
             Raise (SystemExit 1))
        | (t2, Ok weather) =>
            match current_weather_panel py_str loc weather uf with
            | Raise e => (fetching_line city_name :: t1 ++ t2, Raise e)
            | Ok p1 =>
                match forecast_panel fromisoformat weather uf with
                | Raise e =>
                    (fetching_line city_name :: t1 ++ t2
                       ++ [EConsole p1; EConsoleBlank], Raise e)
                | Ok p2 =>
                    (fetching_line city_name :: t1 ++ t2
                       ++ [EConsole p1; EConsoleBlank; EConsole p2; EConsoleBlank],
                     Ok tt)
                end
            end
        end
    end.
Proof.
  cbv zeta. unfold main. unfold io_bind at 1 2. unfold io_emit at 1.
  destruct (geocode_city net _) as [t1 [[loc |] | e]]; try reflexivity.
  unfold io_bind at 1.
  destruct (fetch_weather net _ _ _) as [t2 [weather | e]];
    [| cbn; rewrite ?app_nil_r; reflexivity].
  assert (Hshow :
    (display_current_weather py_str loc weather (fahrenheit args) ;;;
     io_emit EConsoleBlank ;;;
     display_forecast fromisoformat weather (fahrenheit args) ;;;
     io_emit EConsoleBlank)
    = match current_weather_panel py_str loc weather (fahrenheit args) with
      | Raise e => ([], Raise e)
      | Ok p1 =>
          match forecast_panel fromisoformat weather (fahrenheit args) with
          | Raise e => ([EConsole p1; EConsoleBlank], Raise e)
          | Ok p2 => ([EConsole p1; EConsoleBlank; EConsole p2; EConsoleBlank], Ok tt)
          end
      end).
  { rewrite display_current_weather_unfold, display_forecast_unfold.
    unfold io_bind, io_emit.
    destruct (current_weather_panel _ _ _ _); [| reflexivity].
    destruct (forecast_panel _ _ _); reflexivity. }
  destruct weather;
    try (rewrite Hshow;
         destruct (current_weather_panel _ _ _ _);
         [destruct (forecast_panel _ _ _) |];
         cbn; rewrite ?app_nil_r; reflexivity).
  cbn. reflexivity.
Qed.

Lemma raise_for_status_raises (r : response) :
  forall e, raise_for_status r = Raise e -> exists msg, e = RequestException HTTPError msg.
Proof.
  intros e. unfold raise_for_status.
  repeat match goal with |- context [if ?c then _ else _] => destruct c end;
    intros [= <-]; eauto.
Qed.

Lemma geocode_body_raises (r : response) (city_name : string) :
  raises_only (fun e => match e with RequestException _ _ => true | _ => data_error e end)
              (geocode_body r city_name).
Proof.
  unfold geocode_body.
  apply raises_only_bind.
  { intros e He. apply raise_for_status_raises in He as [msg ->]. reflexivity. }
  intros _ _. apply raises_only_bind.
  { unfold response_json. destruct (content r); raises. }
  intros data _.
  apply (raises_only_weaken data_error); [intros e He; destruct e; auto; discriminate |].
  raises.
Qed.

(** How [geocode_city] can end: with its value, with the interrupt, or
    with an error of reading the payload. *)
Lemma geocode_city_outcome (net : network) (city_name : string) (e : exn) :
  outcome (geocode_city net city_name) = Raise e ->
  e = KeyboardInterrupt \/ data_error e = true.
Proof.
  rewrite geocode_city_unfold. cbv zeta.
  destruct (net GEOCODING_URL _) as [kind msg | | r]; simpl; try discriminate.
  - intros [= <-]. auto.
  - pose proof (geocode_body_raises r city_name) as Hb.
    destruct (geocode_body r city_name) as [found | e']; [discriminate |].
    specialize (Hb e' eq_refl).
    destruct e'; simpl; intros [= <-]; auto; discriminate.
Qed.

Lemma fetch_weather_outcome (net : network) (lat lon : json) (uf : bool) (e : exn) :
  outcome (fetch_weather net lat lon uf) = Raise e -> e = KeyboardInterrupt.
Proof.
  rewrite fetch_weather_unfold. cbv zeta.
  destruct (net WEATHER_URL _) as [kind msg | | r]; simpl; try discriminate.
  - intros [= <-]. reflexivity.
  - destruct (raise_for_status r) as [[] | e'] eqn:Hs.
    + destruct (content r); discriminate.
    + apply raise_for_status_raises in Hs as [msg ->]. discriminate.
Qed.

(** How [main] can end. *)
Lemma main_outcome (fromisoformat : string -> option datetime) (py_str : json -> string)
    (net : network) (args : arguments) (e : exn) :
  outcome (main fromisoformat py_str net args) = Raise e ->
  e = SystemExit 1 \/ e = KeyboardInterrupt \/ data_error e = true.
Proof.
  rewrite main_unfold. cbv zeta.
  pose proof (geocode_city_outcome net (String.concat " " (city args))) as Hg.
  destruct (geocode_city net _) as [t1 [[loc |] | e1]]; simpl in *.
  - pose proof (fetch_weather_outcome net (latitude loc) (longitude loc) (fahrenheit args))
      as Hf.
    destruct (fetch_weather net _ _ _) as [t2 [weather | e2]]; simpl in *.
    + pose proof (current_weather_panel_raises py_str loc weather (fahrenheit args)) as Hc.
      pose proof (forecast_panel_raises fromisoformat weather (fahrenheit args)) as Hp.
      destruct weather; simpl; try (intros [= <-]; auto);
        (destruct (current_weather_panel _ _ _ _) as [p1 | e3];
         [destruct (forecast_panel _ _ _) as [p2 | e4] |]; simpl;
         try discriminate; intros [= <-]; auto).
    + intros [= <-]. right. left. apply Hf. reflexivity.
  - intros [= <-]. auto.
  - intros [= <-]. destruct (Hg e1 eq_refl); auto.
Qed.

(** X2. The script adds to [main] only the handling of Ctrl-C: when
    [main] ends with [KeyboardInterrupt] it prints "Cancelled." and
    exits with status 0, and in every other case it ends as [main]
    does.  Its handler for [requests.ConnectionError] is never
    reached, because both clients catch every request error. *)
Theorem script_only_handles_interrupt
    (fromisoformat : string -> option datetime) (py_str : json -> string)
    (net : network) (args : arguments) :
  script fromisoformat py_str net args
  = match outcome (main fromisoformat py_str net args) with
    | Raise KeyboardInterrupt =>
        ((trace (main fromisoformat py_str net args) ++ [cancelled_line])%list,
         Raise (SystemExit 0))
    | _ => main fromisoformat py_str net args
    end.
Proof.
  pose proof (main_outcome fromisoformat py_str net args) as Hm.
  unfold script, io_try.
  destruct (main fromisoformat py_str net args) as [t [[] | e]]; simpl in *;
    [reflexivity |].
  destruct (Hm e eq_refl) as [-> | [-> | He]]; try reflexivity.
  destruct e; try discriminate; reflexivity.
Qed.

















(** X9. An answer that is an object without [results], or whose
    [results] is empty, [null] or otherwise false, makes
    [geocode_city] return [None] after its one request and without
    printing anything. *)
Theorem no_results_gives_none
    (net : network) (city_name : string) (r : response) (kv : list (string * json)) :
  net GEOCODING_URL (geocoding_params city_name) = GetReturns r ->
  raise_for_status r = Ok tt ->
  content r = Decoded (JObj kv) ->
  match dict_lookup "results" kv with
  | None => True
  | Some results => truthy results = false
  end ->
  geocode_city net city_name
  = ([EGet GEOCODING_URL (geocoding_params city_name) 10], Ok None).
Proof.
  intros Hnet Hstatus Hcontent Hresults.
  rewrite geocode_city_unfold. cbv zeta. rewrite Hnet.
  unfold geocode_body, response_json. rewrite Hstatus, Hcontent.
  cbn [result_bind contains subscript_key].
  destruct (dict_lookup "results" kv) as [results |]; [| reflexivity].
  cbn [negb result_bind]. rewrite Hresults. reflexivity.
Qed.

Lemma no_results_gives_none_witness :
  geocode_city More.net_unknown_place "Qwertyuiop"
  = ([EGet GEOCODING_URL (geocoding_params "Qwertyuiop") 10], Ok None).
Proof.
  apply (no_results_gives_none More.net_unknown_place "Qwertyuiop"
           (Sample.ok_response
              (JObj [("generationtime_ms", JFloat (Sample.decimal 5 10))]))
           [("generationtime_ms", JFloat (Sample.decimal 5 10))]);
    first [reflexivity | exact I].
Defined.

(** ** The two panels *)

(** Reads a successful chain of binds back into its steps. *)
Ltac bind_inv H :=
  repeat match type of H with
         | result_bind ?m _ = Ok _ =>
             let E := fresh "E" in
             destruct m eqn:E; cbn [result_bind] in H; [| discriminate H]
         end.

Lemma result_mapM_length {A B} (f : A -> result B) (l : list A) (ys : list B) :
  result_mapM f l = Ok ys -> length ys = length l.
Proof.
  revert ys. induction l as [| x rest IH]; simpl; intros ys H.
  - injection H as <-. reflexivity.
  - bind_inv H. injection H as <-. simpl. f_equal. apply IH. reflexivity.
Qed.

Lemma result_mapM_Forall {A B} (P : B -> Prop) (f : A -> result B) (l : list A)
    (ys : list B) :
  (forall x y, f x = Ok y -> P y) -> result_mapM f l = Ok ys -> Forall P ys.
Proof.
  intros Hf. revert ys. induction l as [| x rest IH]; simpl; intros ys H.
  - injection H as <-. constructor.
  - bind_inv H. injection H as <-. constructor; [eapply Hf; eassumption | apply IH; reflexivity].
Qed.

Lemma result_mapM_raise {A B} (f : A -> result B) (l : list A) (x : A) (e : exn) :
  In x l -> f x = Raise e -> exists e', result_mapM f l = Raise e'.
Proof.
  intros Hin Hx. induction l as [| x' rest IH]; [contradiction |].
  simpl. destruct Hin as [-> | Hin].
  - rewrite Hx. eauto.
  - destruct (f x') as [y | e1]; cbn [result_bind]; [| eauto].
    destruct (IH Hin) as [e' ->]. eauto.
Qed.

Lemma list_index_beyond {A} (l : list A) (i : nat) :
  (length l <= i)%nat -> list_index l (Z.of_nat i) = Raise IndexError.
Proof.
  intros H. unfold list_index. cbv zeta.
  replace (Z.of_nat i <? 0) with false by (symmetry; apply Z.ltb_ge; lia).
  replace (Z.of_nat i <? Z.of_nat (length l)) with false
    by (symmetry; apply Z.ltb_ge; lia).
  rewrite andb_false_r. reflexivity.
Qed.

Section Panels.
Variable fromisoformat : string -> option datetime.
Variable py_str : json -> string.

Lemma forecast_row_cells (daily : json) (uf : bool) (i : nat) (row : list string) :
  forecast_row fromisoformat daily uf i = Ok row -> length row = 7%nat.
Proof.
  unfold forecast_row. cbv zeta. intros H. bind_inv H. injection H as <-. reflexivity.
Qed.

(** X10. When the forecast panel is built, it has one row for each
    entry of [daily["time"]], in that order, and every row has the
    seven cells of the table. *)
Theorem forecast_has_a_row_per_day
    (weather daily : json) (times : list json) (uf : bool) (panel : renderable) :
  subscript_key weather "daily" = Ok daily ->
  subscript_key daily "time" = Ok (JArr times) ->
  forecast_panel fromisoformat weather uf = Ok panel ->
  exists rows,
    panel = Panel (Table rows) "[bold]5-Day Forecast[/bold]"
    /\ length rows = length times
    /\ Forall (fun row => length row = 7%nat) rows
    /\ forall (i : nat) (row : list string),
         rows !! i = Some row -> forecast_row fromisoformat daily uf i = Ok row.
Proof.
  intros Hdaily Htimes H. unfold forecast_panel in H.
  rewrite Hdaily in H. cbn [result_bind] in H. rewrite Htimes in H.
  cbn [result_bind py_len] in H.
  destruct (result_mapM _ _) as [rows | e] eqn:E; [| discriminate H].
  cbn [result_bind] in H. injection H as <-.
  exists rows. split; [reflexivity |]. split; [| split].
  - rewrite (result_mapM_length _ _ _ E). apply length_seq.
  - apply (result_mapM_Forall _ _ _ _ (forecast_row_cells daily uf) E).
  - intros i row Hrow.
    assert (Hgen : forall (idx : list nat) (out : list (list string)),
               result_mapM (forecast_row fromisoformat daily uf) idx = Ok out ->
               forall k r, out !! k = Some r ->
               exists j, idx !! k = Some j
                         /\ forecast_row fromisoformat daily uf j = Ok r).
    { intros idx. induction idx as [| j idx IH]; simpl; intros out Hm k r Hk.
      - injection Hm as <-. discriminate.
      - bind_inv Hm. injection Hm as <-. destruct k as [| k]; simpl in *.
        + injection Hk as <-. eauto.
        + eapply IH; [reflexivity | exact Hk]. }
    destruct (Hgen _ _ E i row Hrow) as (j & Hj & Hr).
    apply lookup_seq in Hj as [-> _]. exact Hr.
Qed.

(** X11. With an empty [daily["time"]] the loop does not run: the
    forecast panel is printed with an empty table, whatever else
    [daily] holds or lacks. *)
Theorem empty_forecast_is_an_empty_table
    (weather : json) (kv : list (string * json)) (uf : bool) :
  subscript_key weather "daily" = Ok (JObj kv) ->
  dict_lookup "time" kv = Some (JArr []) ->
  display_forecast fromisoformat weather uf
  = ([EConsole (Panel (Table []) "[bold]5-Day Forecast[/bold]")], Ok tt).
Proof.
  intros Hdaily Htimes. rewrite display_forecast_unfold. unfold forecast_panel.
  rewrite Hdaily. cbn [result_bind subscript_key]. rewrite Htimes. reflexivity.
Qed.

(** X12. When one of the six other columns of [daily] is a list with
    fewer entries than [daily["time"]], building the forecast panel
    raises and [display_forecast] prints nothing. *)
Theorem short_column_aborts_the_forecast
    (weather : json) (kv : list (string * json)) (times column : list json)
    (field : string) (uf : bool) :
  subscript_key weather "daily" = Ok (JObj kv) ->
  dict_lookup "time" kv = Some (JArr times) ->
  field ∈ ["weather_code"; "temperature_2m_max"; "temperature_2m_min";
           "precipitation_sum"; "sunrise"; "sunset"] ->
  dict_lookup field kv = Some (JArr column) ->
  (length column < length times)%nat ->
  exists e,
    forecast_panel fromisoformat weather uf = Raise e
    /\ display_forecast fromisoformat weather uf = ([], Raise e).
Proof.
  intros Hdaily Htimes Hfield Hcolumn Hshort.
  assert (Hrow : exists e, forecast_row fromisoformat (JObj kv) uf (length column) = Raise e).
  { unfold forecast_row. cbv zeta. cbn [subscript_key].
    repeat (apply elem_of_cons in Hfield as [-> | Hfield]);
      [.. | apply elem_of_nil in Hfield; contradiction];
      rewrite Hcolumn; cbn [result_bind subscript_int];
      rewrite (list_index_beyond column (length column) (Nat.le_refl _));
      repeat match goal with
             | |- exists e, Raise _ = Raise e => eexists; reflexivity
             | |- exists e, result_bind ?m _ = Raise e =>
                 destruct m; cbn [result_bind]
             end. }
  destruct Hrow as [e0 Hrow].
  assert (Hpanel : exists e, forecast_panel fromisoformat weather uf = Raise e).
  { unfold forecast_panel. rewrite Hdaily. cbn [result_bind subscript_key].
    rewrite Htimes. cbn [result_bind py_len].
    destruct (result_mapM_raise (forecast_row fromisoformat (JObj kv) uf)
                (seq 0 (length times)) (length column) e0) as [e' ->];
      [apply in_seq; lia | exact Hrow | eauto]. }
  destruct Hpanel as [e He]. exists e. split; [exact He |].
  rewrite display_forecast_unfold, He. reflexivity.
Qed.

(** X13. A first date that does not parse makes [display_forecast]
    raise [ValueError] and print nothing, while [format_time] hands the
    same string back: the fallback covers sunrise and sunset, not the
    date of the row. *)
Theorem bad_date_aborts_the_forecast
    (weather : json) (kv : list (string * json)) (s : string) (rest : list json)
    (uf : bool) :
  subscript_key weather "daily" = Ok (JObj kv) ->
  dict_lookup "time" kv = Some (JArr (JStr s :: rest)) ->
  fromisoformat s = None ->
  display_forecast fromisoformat weather uf = ([], Raise ValueError)
  /\ format_time fromisoformat (JStr s) = Ok (JStr s).
Proof.
  intros Hdaily Htimes Hparse. split.
  - rewrite display_forecast_unfold. unfold forecast_panel.
    rewrite Hdaily. cbn [result_bind subscript_key]. rewrite Htimes.
    cbn [result_bind py_len length seq result_mapM].
    unfold forecast_row at 1. cbv zeta. cbn [subscript_key]. rewrite Htimes.
    cbn [result_bind subscript_int Z.of_nat]. rewrite list_index_head.
    cbn [result_bind datetime_fromisoformat]. rewrite Hparse. reflexivity.
  - unfold format_time, datetime_fromisoformat. rewrite Hparse. reflexivity.
Qed.

(** X14. When the panel of the current conditions is built for a
    location whose three names are strings, its title lists the name,
    then the region and the country that are not empty, separated by
    ", ": an empty region or country leaves no comma behind. *)
Theorem current_weather_title
    (loc : location) (weather : json) (uf : bool) (panel : renderable)
    (loc_name admin country_name : string) :
  name loc = JStr loc_name ->
  admin1 loc = JStr admin ->
  country loc = JStr country_name ->
  current_weather_panel py_str loc weather uf = Ok panel ->
  exists content,
    panel = Panel content
              ("[bold]Current Weather: "
               +:+ String.concat ", " (title_parts loc_name admin country_name)
               +:+ "[/bold]").
Proof.
  intros Hname Hadmin Hcountry H. unfold current_weather_panel in H.
  rewrite Hname, Hadmin, Hcountry in H. cbv zeta in H. cbn [truthy] in H.
  unfold title_parts.
  destruct (String.eqb admin ""), (String.eqb country_name "");
    cbn [negb app join_parts result_bind] in H;
    bind_inv H; injection H as <-; eexists; reflexivity.
Qed.
End Panels.

Lemma forecast_has_a_row_per_day_witness :
  exists rows,
    Panel (Table [["Sun 03/10"; "☁️  Overcast"; "[red]22.5°C[/red]";
                   "[blue]11.0°C[/blue]"; "0.0 mm"; "6:45 AM"; "not-a-date"]])
          "[bold]5-Day Forecast[/bold]"
    = Panel (Table rows) "[bold]5-Day Forecast[/bold]"
    /\ length rows = length [JStr "2024-03-10"]
    /\ Forall (fun row => length row = 7%nat) rows
    /\ forall (i : nat) (row : list string),
         rows !! i = Some row ->
         forecast_row Plain.fromisoformat
           (JObj [("time", JArr [JStr "2024-03-10"]);
                  ("weather_code", JArr [JInt 3]);
                  ("temperature_2m_max", JArr [JFloat (Sample.decimal 225 10)]);
                  ("temperature_2m_min", JArr [JInt 11]);
                  ("precipitation_sum", JArr [JFloat (Sample.decimal 0 1)]);
                  ("sunrise", JArr [JStr "2024-03-10T06:45"]);
                  ("sunset", JArr [JStr "not-a-date"])])
           false i = Ok row.
Proof.
  apply (forecast_has_a_row_per_day Plain.fromisoformat Sample.forecast_doc);
    vm_compute; reflexivity.
Defined.

Lemma empty_forecast_is_an_empty_table_witness :
  display_forecast Plain.fromisoformat (JObj [("daily", JObj [("time", JArr [])])]) true
  = ([EConsole (Panel (Table []) "[bold]5-Day Forecast[/bold]")], Ok tt).
Proof.
  apply (empty_forecast_is_an_empty_table Plain.fromisoformat
           (JObj [("daily", JObj [("time", JArr [])])]) [("time", JArr [])] true);
    reflexivity.
Defined.

Lemma short_column_aborts_the_forecast_witness :
  exists e,
    forecast_panel Plain.fromisoformat (JObj [("daily", JObj More.daily_short_column)]) false
    = Raise e
    /\ display_forecast Plain.fromisoformat
         (JObj [("daily", JObj More.daily_short_column)]) false
       = ([], Raise e).
Proof.
  apply (short_column_aborts_the_forecast Plain.fromisoformat
           (JObj [("daily", JObj More.daily_short_column)]) More.daily_short_column
           [JStr "2024-03-10"; JStr "2024-03-11"] [JInt 3] "weather_code" false);
    try reflexivity.
  - rewrite elem_of_cons. left. reflexivity.
  - simpl. lia.
Defined.

Lemma bad_date_aborts_the_forecast_witness :
  display_forecast Plain.fromisoformat (JObj [("daily", JObj More.daily_bad_date)]) false
  = ([], Raise ValueError)
  /\ format_time Plain.fromisoformat (JStr "tomorrow") = Ok (JStr "tomorrow").
Proof.
  apply (bad_date_aborts_the_forecast Plain.fromisoformat
           (JObj [("daily", JObj More.daily_bad_date)]) More.daily_bad_date
           "tomorrow" [] false); reflexivity.
Defined.

Lemma current_weather_title_witness :
  exists content,
    Panel
      (Group [Text ""; AlignCenter (Text "☀️"); Text "";
              Table [ ["Temperature:"; "21.0°C"];
                      ["Feels like:"; "20.0°C"];
                      ["Humidity:"; "40%"];
                      ["Wind:"; "12.3 km/h SW"];
                      ["Conditions:"; "☀️  Clear sky"] ]])
      "[bold]Current Weather: Springfield, United States[/bold]"
    = Panel content
        ("[bold]Current Weather: "
         +:+ String.concat ", " (title_parts "Springfield" "" "United States")
         +:+ "[/bold]").
Proof.
  apply (current_weather_title Plain.str
           {| name := JStr "Springfield";
              latitude := JFloat (Sample.decimal 3978 100);
              longitude := JFloat (Sample.decimal (-8965) 100);
              country := JStr "United States";
              admin1 := JStr "" |}
           (JObj [("current", JObj Sample.current_without_code)]) false);
    vm_compute; reflexivity.
Defined.

(** ** Display order *)





(** ** Sectors and codes *)

(** X17. For a whole number of degrees from -360 to 720 the index is
    the sector [((4 d + 45) / 90) mod 16]: each label covers the 22.5
    degrees centred on its bearing, so that N is given from 349 to 11
    degrees and NNE from 12 to 33. *)
Theorem wind_index_is_the_sector (d : Z) :
  -360 <= d <= 720 ->
  wind_index (JInt d) = Ok (sector d)
  /\ wind_cardinal (JInt d) = Ok (nth (Z.to_nat (sector d)) CARDINAL_DIRECTIONS "").
Proof.
  intros Hd.
  assert (Hall : holds_from wind_index_is_sector (-360) (Z.to_nat (720 - -360 + 1)) = true)
    by (vm_compute; reflexivity).
  pose proof (holds_from_range _ _ _ d Hall Hd) as H.
  unfold wind_index_is_sector in H.
  destruct (wind_index (JInt d)) as [index | e] eqn:Hidx; [| discriminate].
  apply Z.eqb_eq in H. subst index. split; [reflexivity |].
  unfold wind_cardinal. rewrite Hidx. cbn [result_bind].
  destruct (cardinal_lookup _ (wind_index_range _ _ Hidx)) as (c & Hc & ->).
  f_equal. symmetry. apply (nth_lookup_Some _ _ _ _ Hc).
Qed.

Lemma wind_index_is_the_sector_witness :
  wind_index (JInt 349) = Ok (sector 349)
  /\ wind_cardinal (JInt 349) = Ok (nth (Z.to_nat (sector 349)) CARDINAL_DIRECTIONS "").
Proof. apply (wind_index_is_the_sector 349). lia. Defined.

(** X18. A weather code is looked up by its value: a float or a
    boolean finds the entry of the int it equals; [None], a string and
    a float that is no integer find nothing and give ["Unknown"] and
    the thermometer, without any failure; a list or an object raises
    [TypeError]. *)
Theorem weather_code_by_value :
  (forall (f : float) (z : Z),
      Float64.to_integral f = Some z ->
      get_weather_description (JFloat f) = get_weather_description (JInt z)
      /\ get_weather_icon (JFloat f) = get_weather_icon (JInt z))
  /\ (forall b : bool,
        get_weather_description (JBool b)
        = get_weather_description (JInt (if b then 1 else 0))
        /\ get_weather_icon (JBool b) = get_weather_icon (JInt (if b then 1 else 0)))
  /\ (forall code : json,
        match code with
        | JNull | JStr _ => True
        | JFloat f => Float64.to_integral f = None
        | _ => False
        end ->
        get_weather_description code = Ok "Unknown"
        /\ get_weather_icon code = Ok "🌡️")
  /\ (forall code : json,
        match code with JArr _ | JObj _ => True | _ => False end ->
        get_weather_description code = Raise TypeError
        /\ get_weather_icon code = Raise TypeError).
Proof.
  unfold get_weather_description, get_weather_icon, in_weather_codes, weather_codes_item.
  repeat split.
  1-2: cbn [int_key result_bind]; rewrite H;
    destruct (weather_codes_entry (Some z)); reflexivity.
  1-2: cbn [int_key result_bind];
    destruct (weather_codes_entry (Some (if b then 1 else 0))); reflexivity.
  all: destruct code; try contradiction; cbn [int_key result_bind];
    rewrite ?H; reflexivity.
Qed.

Lemma weather_code_by_value_witness :
  (get_weather_description (JFloat (Float64.of_scaled 3 0)) = get_weather_description (JInt 3)
   /\ get_weather_icon (JFloat (Float64.of_scaled 3 0)) = get_weather_icon (JInt 3))
  /\ (get_weather_description JNull = Ok "Unknown" /\ get_weather_icon JNull = Ok "🌡️")
  /\ (get_weather_description (JArr []) = Raise TypeError
      /\ get_weather_icon (JArr []) = Raise TypeError).
Proof.
  split; [| split].
  - apply (proj1 weather_code_by_value (Float64.of_scaled 3 0) 3). reflexivity.
  - apply (proj1 (proj2 (proj2 weather_code_by_value)) JNull). exact I.
  - apply (proj2 (proj2 (proj2 weather_code_by_value)) (JArr [])). exact I.
Defined.

Lemma format_temperature_null (uf : bool) : format_temperature JNull uf = Raise TypeError.
Proof. reflexivity. Qed.

Lemma format_wind_null_speed (direction : json) (uf : bool) :
  exists e, format_wind JNull direction uf = Raise e.
Proof.
  unfold format_wind. cbv zeta.
  destruct (wind_cardinal direction); cbn [result_bind format_1f]; eauto.
Qed.

Lemma format_wind_null_direction (speed : json) (uf : bool) :
  format_wind speed JNull uf = Raise TypeError.
Proof. reflexivity. Qed.

(** X19. A temperature, an apparent temperature, a wind speed or a wind
    direction that is present but [null] makes the panel of the current
    conditions raise, and nothing is printed: only a number can be
    formatted with one decimal or divided by 22.5. *)
Theorem null_reading_aborts_current_panel
    (py_str : json -> string) (loc : location) (weather : json)
    (current : list (string * json)) (uf : bool) (field : string) :
  subscript_key weather "current" = Ok (JObj current) ->
  field ∈ ["temperature_2m"; "apparent_temperature"; "wind_speed_10m";
           "wind_direction_10m"] ->
  dict_lookup field current = Some JNull ->
  exists e,
    current_weather_panel py_str loc weather uf = Raise e
    /\ display_current_weather py_str loc weather uf = ([], Raise e).
Proof.
  intros Hcurrent Hin Hnull.
  assert (Hpanel : exists e, current_weather_panel py_str loc weather uf = Raise e).
  { unfold current_weather_panel. rewrite Hcurrent.
    cbn [result_bind get_default subscript_key].
    repeat (apply elem_of_cons in Hin as [-> | Hin]);
      [.. | apply elem_of_nil in Hin; contradiction];
      rewrite Hnull;
      repeat match goal with
             | |- exists e, Raise _ = Raise e => eexists; reflexivity
             | |- exists e, result_bind (format_temperature JNull _) _ = Raise e =>
                 rewrite format_temperature_null; cbn [result_bind]
             | |- exists e, result_bind (format_wind ?s JNull ?u) _ = Raise e =>
                 rewrite (format_wind_null_direction s u); cbn [result_bind]
             | |- exists e, result_bind (format_wind JNull ?d ?u) _ = Raise e =>
                 let e' := fresh "e" in
                 destruct (format_wind_null_speed d u) as [e' ->]; cbn [result_bind]
             | |- exists e, result_bind ?m _ = Raise e =>
                 destruct m; cbn [result_bind]
             end. }
  destruct Hpanel as [e He]. exists e. split; [exact He |].
  rewrite display_current_weather_unfold, He. reflexivity.
Qed.

Lemma null_reading_aborts_current_panel_witness :
  exists e,
    current_weather_panel Plain.str Sample.springfield
      (JObj [("current", JObj [("temperature_2m", JNull)])]) false = Raise e
    /\ display_current_weather Plain.str Sample.springfield
         (JObj [("current", JObj [("temperature_2m", JNull)])]) false = ([], Raise e).
Proof.
  apply (null_reading_aborts_current_panel Plain.str Sample.springfield
           (JObj [("current", JObj [("temperature_2m", JNull)])])
           [("temperature_2m", JNull)] false "temperature_2m");
    try reflexivity.
  rewrite elem_of_cons. left. reflexivity.
Defined.
